(** * chemkit: the OPLS force field set-up and the graphics transform

    A shallow embedding of two translation units of chemkit:

    - the implementation of the OPLS force field (it includes
      oplsforcefield.h): the constructor of [OplsForceField] and
      [OplsForceField::setup];
    - [src/graphics/graphicstransform.cpp]: the 4x4 transformation matrix
      of the graphics library.

    The force field is a C++ object mutated in place; here every member
    function takes the object and returns the new one together with its
    result.  Classes whose implementation lives in other translation units
    (the topology, the parameter table, the per-calculation [setup]) are
    taken through an interface, so every statement below holds for any
    implementation of them. *)

From Stdlib Require Import List Bool ZArith NArith String Lia.
From Stdlib Require Import SpecFloat.
From Stdlib Require Import Reals Lra.
From Stdlib Require Import RNsatz.
Import ListNotations.

(** ** Interaction tuples and calculations *)

(** [Topology::BondedInteraction] and its siblings are fixed-size arrays
    of [size_t] atom indices, read by [interaction[0]], [interaction[1]],
    ... in [setup]. *)
Definition BondedInteraction : Type := (N * N)%type.
Definition AngleInteraction : Type := (N * N * N)%type.
Definition TorsionInteraction : Type := (N * N * N * N)%type.
Definition NonbondedInteraction : Type := (N * N)%type.

(** The four calculation classes instantiated by [setup]. *)
Inductive CalculationKind : Type :=
| BondStrech
| AngleBend
| Torsion
| Nonbonded.

(** Number of atoms of a calculation of each kind. *)
Definition arity (k : CalculationKind) : nat :=
  match k with
  | BondStrech => 2
  | AngleBend => 3
  | Torsion => 4
  | Nonbonded => 2
  end.

(** A registered plugin; [setup] and the constructor only read its data
    directory. *)
Record Plugin : Type := { dataPath : string }.

(** The plugin manager singleton, consulted by name. *)
Definition PluginManager : Type := string -> option Plugin.

Definition plugin (pm : PluginManager) (name : string) : option Plugin := pm name.

(** *** What the translation unit imports

    The classes and helpers implemented in other translation units, as
    an interface; every statement about the force field holds for each of
    its implementations. *)
Class ForceFieldImports : Type := {
  (** [chemkit::Topology] with the four accessors that [setup] iterates. *)
  Topology : Type;
  bondedInteractions : Topology -> list BondedInteraction;
  angleInteractions : Topology -> list AngleInteraction;
  torsionInteractions : Topology -> list TorsionInteraction;
  nonbondedInteractions : Topology -> list NonbondedInteraction;

  (** [OplsParameters] and its constructor from a file name. *)
  OplsParameters : Type;
  OplsParameters_new : string -> OplsParameters;

  (** The coefficients held by a calculation, and their value in a
      calculation that was just constructed. *)
  Coefficients : Type;
  unbound : Coefficients;

  (** [OplsCalculation::setup], which takes a pointer to the parameter
      table.  It is called on a calculation of the given kind and atoms
      holding the given coefficients, inside a force field with the given
      topology; it may rewrite the coefficients and returns whether it
      succeeded.  The pointer it receives may be null. *)
  OplsCalculation_setup :
    Topology -> option OplsParameters -> CalculationKind -> list N ->
    Coefficients -> Coefficients * bool;

  (** The value of the enumerator [ForceField::AnalyticalGradient]. *)
  AnalyticalGradient : Z;

  (** Energies and gradients as [compute] adds them up, and what one
      calculation contributes. *)
  Energy : Type;
  energy_zero : Energy;
  energy_add : Energy -> Energy -> Energy;
  Gradient : Type;
  gradient_zero : Gradient;
  gradient_add : Gradient -> Gradient -> Gradient;
  calc_energy : CalculationKind -> list N -> Coefficients -> Energy;
  calc_gradient : CalculationKind -> list N -> Coefficients -> Gradient
}.

Section ForceField.

Context `{ForceFieldImports}.

(** *** Calculations *)

Record ForceFieldCalculation : Type := {
  calc_kind : CalculationKind;
  calc_atoms : list N;
  calc_parameters : Coefficients;
  calc_isSetup : bool
}.

(** Modelled from the spec: the constructors of the four calculation
    classes (oplscalculation.cpp is not part of the sources at hand).  A
    calculation is constructed with its ordered tuple of atom indices and
    its kind, unbound and not set up. *)
Definition OplsCalculation_new (k : CalculationKind) (atoms : list N)
  : ForceFieldCalculation :=
  {| calc_kind := k; calc_atoms := atoms;
     calc_parameters := unbound; calc_isSetup := false |}.

(** Modelled from the spec: the constructor of the bond stretch term, on
    two atoms. *)
Definition OplsBondStrechCalculation (a b : N) : ForceFieldCalculation :=
  OplsCalculation_new BondStrech [a; b].

(** Modelled from the spec: the constructor of the angle bend term, on
    three atoms. *)
Definition OplsAngleBendCalculation (a b c : N) : ForceFieldCalculation :=
  OplsCalculation_new AngleBend [a; b; c].

(** Modelled from the spec: the constructor of the torsion term, on four
    atoms. *)
Definition OplsTorsionCalculation (a b c d : N) : ForceFieldCalculation :=
  OplsCalculation_new Torsion [a; b; c; d].

(** Modelled from the spec: the constructor of the nonbonded term, on two
    atoms. *)
Definition OplsNonbondedCalculation (a b : N) : ForceFieldCalculation :=
  OplsCalculation_new Nonbonded [a; b].

(** Kind and atom tuple of a calculation. *)
Definition signature (c : ForceFieldCalculation) : CalculationKind * list N :=
  (calc_kind c, calc_atoms c).

(** *** The force field object *)

Record OplsForceField : Type := {
  name : string;
  topology : option Topology;
  calculations : list ForceFieldCalculation;
  flags : Z;
  m_parameters : option OplsParameters
}.

(** The members of the base class [chemkit::ForceField] that the OPLS
    force field uses are implemented in forcefield.cpp, which is not part
    of the sources at hand; they follow the specification. *)

(** Modelled from the spec: the constructor of the base class.  A new
    force field is unconfigured: no topology, an empty ordered collection
    of calculations, no capability bit. *)
Definition ForceField_new (n : string) : OplsForceField :=
  {| name := n; topology := None; calculations := []; flags := 0%Z;
     m_parameters := None |}.

(** Modelled from the spec: [setFlags] stores the flags word. *)
Definition setFlags (ff : OplsForceField) (f : Z) : OplsForceField :=
  {| name := name ff; topology := topology ff;
     calculations := calculations ff; flags := f;
     m_parameters := m_parameters ff |}.

(** Modelled from the spec: [setTopology] attaches a topology, or none. *)
Definition setTopology (ff : OplsForceField) (t : option Topology) : OplsForceField :=
  {| name := name ff; topology := t;
     calculations := calculations ff; flags := flags ff;
     m_parameters := m_parameters ff |}.

(** Modelled from the spec: [addCalculation] appends to the ordered
    collection of the force field. *)
Definition addCalculation (ff : OplsForceField) (c : ForceFieldCalculation)
  : OplsForceField :=
  {| name := name ff; topology := topology ff;
     calculations := calculations ff ++ [c]; flags := flags ff;
     m_parameters := m_parameters ff |}.

(** Modelled from the spec: [setCalculationSetup] records the boolean
    against the calculation, as its "is set up" flag.  The calculation is
    passed by pointer; here the loop that calls it puts the flagged
    calculation back in its place. *)
Definition setCalculationSetup (c : ForceFieldCalculation) (setup : bool)
  : ForceFieldCalculation :=
  {| calc_kind := calc_kind c; calc_atoms := calc_atoms c;
     calc_parameters := calc_parameters c; calc_isSetup := setup |}.

(** Modelled from the spec: the introspection [count()], [isSetUp(i)],
    [kind(i)]; an index past the end gives nothing. *)
Definition count (ff : OplsForceField) : nat := List.length (calculations ff).



(** Modelled from the spec: whether the force field advertises a
    capability, that is whether every bit of [f] is set in its flags
    word. *)
Definition testFlag (ff : OplsForceField) (f : Z) : bool :=
  Z.eqb (Z.land (flags ff) f) f.

(** Assignment to the member [m_parameters]. *)
Definition set_m_parameters (ff : OplsForceField) (p : option OplsParameters)
  : OplsForceField :=
  {| name := name ff; topology := topology ff;
     calculations := calculations ff; flags := flags ff;
     m_parameters := p |}.

(** The force field with its calculations replaced by their state after
    the last loop of [setup]. *)
Definition set_calculations (ff : OplsForceField) (cs : list ForceFieldCalculation)
  : OplsForceField :=
  {| name := name ff; topology := topology ff;
     calculations := cs; flags := flags ff;
     m_parameters := m_parameters ff |}.

(** *** [OplsForceField::OplsForceField] *)

Definition OplsForceField_new (pm : PluginManager) : OplsForceField :=
  let ff := ForceField_new "opls" in
  let ff := set_m_parameters ff None in
  let ff := setFlags ff AnalyticalGradient in
  match plugin pm "opls" with
  | Some oplsPlugin =>
      set_m_parameters ff
        (Some (OplsParameters_new (dataPath oplsPlugin ++ "oplsaa.prm")))
  | None => ff
  end.

(** *** [OplsForceField::setup] *)

(** The call [calculation->setup(m_parameters)] on one calculation: the
    calculation after the call, and the value returned. *)
Definition OplsCalculation_setup_on (t : Topology) (p : option OplsParameters)
    (c : ForceFieldCalculation) : ForceFieldCalculation * bool :=
  let r := OplsCalculation_setup t p (calc_kind c) (calc_atoms c)
             (calc_parameters c) in
  ({| calc_kind := calc_kind c; calc_atoms := calc_atoms c;
      calc_parameters := fst r; calc_isSetup := calc_isSetup c |}, snd r).

(** The last loop of [setup], over [calculations()], threading [ok]. *)
Fixpoint setup_loop (t : Topology) (p : option OplsParameters)
    (cs : list ForceFieldCalculation) (ok : bool)
  : list ForceFieldCalculation * bool :=
  match cs with
  | [] => ([], ok)
  | calculation :: rest =>
      let (calculation1, setup) := OplsCalculation_setup_on t p calculation in
      let ok1 := if negb setup then false else ok in
      let calculation2 := setCalculationSetup calculation1 setup in
      let (rest', ok2) := setup_loop t p rest ok1 in
      (calculation2 :: rest', ok2)
  end.

Definition setup (ff : OplsForceField) : OplsForceField * bool :=
  match topology ff with
  | None => (ff, false)
  | Some t =>
      let ff1 :=
        fold_left (fun ff (interaction : BondedInteraction) =>
                     addCalculation ff
                       (OplsBondStrechCalculation (fst interaction) (snd interaction)))
                  (bondedInteractions t) ff in
      let ff2 :=
        fold_left (fun ff (interaction : AngleInteraction) =>
                     let '(i0, i1, i2) := interaction in
                     addCalculation ff (OplsAngleBendCalculation i0 i1 i2))
                  (angleInteractions t) ff1 in
      let ff3 :=
        fold_left (fun ff (interaction : TorsionInteraction) =>
                     let '(i0, i1, i2, i3) := interaction in
                     addCalculation ff (OplsTorsionCalculation i0 i1 i2 i3))
                  (torsionInteractions t) ff2 in
      let ff4 :=
        fold_left (fun ff (interaction : NonbondedInteraction) =>
                     addCalculation ff
                       (OplsNonbondedCalculation (fst interaction) (snd interaction)))
                  (nonbondedInteractions t) ff3 in
      let (cs, ok) := setup_loop t (m_parameters ff4) (calculations ff4) true in
      (set_calculations ff4 cs, ok)
  end.

(** Modelled from the spec: [compute] (the evaluation entry point of the
    base class is not part of the sources at hand).  It sums energy and
    gradient over the calculations whose "is set up" flag is true and
    leaves the force field as it is. *)
Definition compute (ff : OplsForceField) : OplsForceField * (Energy * Gradient) :=
  let bound := filter calc_isSetup (calculations ff) in
  (ff,
   (fold_left (fun e c => energy_add e (calc_energy (calc_kind c) (calc_atoms c)
                                          (calc_parameters c)))
              bound energy_zero,
    fold_left (fun g c => gradient_add g (calc_gradient (calc_kind c) (calc_atoms c)
                                            (calc_parameters c)))
              bound gradient_zero)).

(** *** Reference descriptions used in the statements *)

(** The calculations [setup] constructs for a topology, in order. *)
Definition enumerate (t : Topology) : list ForceFieldCalculation :=
  map (fun i : BondedInteraction => OplsBondStrechCalculation (fst i) (snd i))
      (bondedInteractions t)
  ++ map (fun i : AngleInteraction =>
            let '(i0, i1, i2) := i in OplsAngleBendCalculation i0 i1 i2)
         (angleInteractions t)
  ++ map (fun i : TorsionInteraction =>
            let '(i0, i1, i2, i3) := i in OplsTorsionCalculation i0 i1 i2 i3)
         (torsionInteractions t)
  ++ map (fun i : NonbondedInteraction => OplsNonbondedCalculation (fst i) (snd i))
         (nonbondedInteractions t).

(** Kind and atom tuple of each interaction tuple of a topology, in the
    order bonded, angle, torsion, nonbonded. *)
Definition interaction_signatures (t : Topology) : list (CalculationKind * list N) :=
  map (fun i : BondedInteraction => (BondStrech, [fst i; snd i]))
      (bondedInteractions t)
  ++ map (fun i : AngleInteraction =>
            let '(i0, i1, i2) := i in (AngleBend, [i0; i1; i2]))
         (angleInteractions t)
  ++ map (fun i : TorsionInteraction =>
            let '(i0, i1, i2, i3) := i in (Torsion, [i0; i1; i2; i3]))
         (torsionInteractions t)
  ++ map (fun i : NonbondedInteraction => (Nonbonded, [fst i; snd i]))
         (nonbondedInteractions t).

Definition interaction_count (t : Topology) : nat :=
  List.length (bondedInteractions t) + List.length (angleInteractions t)
  + List.length (torsionInteractions t) + List.length (nonbondedInteractions t).

(** Outcome of the per-calculation set-up call on [c]. *)
Definition setup_succeeds (t : Topology) (p : option OplsParameters)
    (c : ForceFieldCalculation) : bool :=
  snd (OplsCalculation_setup_on t p c).

(** A calculation after its set-up call and the recording of its flag. *)
Definition after_setup (t : Topology) (p : option OplsParameters)
    (c : ForceFieldCalculation) : ForceFieldCalculation :=
  setCalculationSetup (fst (OplsCalculation_setup_on t p c))
                      (snd (OplsCalculation_setup_on t p c)).

(** Calling the set-up of a calculation again, on the coefficients the
    first call left, leaves the same coefficients and returns the same
    value. *)
Definition setup_call_idempotent : Prop :=
  forall t p k atoms c,
    OplsCalculation_setup t p k atoms
      (fst (OplsCalculation_setup t p k atoms c))
    = OplsCalculation_setup t p k atoms c.

(** The operations a caller can apply to a constructed force field. *)
Inductive Operation : Type :=
| OpSetTopology (t : option Topology)
| OpSetup
| OpCompute.

Definition apply_operation (ff : OplsForceField) (op : Operation) : OplsForceField :=
  match op with
  | OpSetTopology t => setTopology ff t
  | OpSetup => fst (setup ff)
  | OpCompute => fst (compute ff)
  end.

Definition run (ops : list Operation) (ff : OplsForceField) : OplsForceField :=
  fold_left apply_operation ops ff.

End ForceField.

(** ** The graphics transform *)

(** The scalar type of the matrices, with the arithmetic the code uses.
    [of_Z] reads an integer literal.  The code computes in [float] and
    writes some literals and constants in a wider type; one scalar type
    stands for both, the conversions being part of the operations. *)
Class Scalar (F : Type) : Type := {
  of_Z : Z -> F;
  add : F -> F -> F;
  sub : F -> F -> F;
  mul : F -> F -> F;
  div : F -> F -> F;
  opp : F -> F
}.

(** [Point3f] and [Vector3f]: three coordinates. *)
Record Vector3 (F : Type) : Type := mkVector3 { x : F; y : F; z : F }.
Arguments mkVector3 {F} _ _ _.
Arguments x {F} _.
Arguments y {F} _.
Arguments z {F} _.

Definition Point3 (F : Type) : Type := Vector3 F.

(** [Eigen::Matrix<float, 4, 1>]. *)
Record Vector4 (F : Type) : Type := mkVector4 { c0 : F; c1 : F; c2 : F; c3 : F }.
Arguments mkVector4 {F} _ _ _ _.
Arguments c0 {F} _.
Arguments c1 {F} _.
Arguments c2 {F} _.
Arguments c3 {F} _.

(** [Eigen::Matrix<float, 4, 4>], by rows.  A [GraphicsTransform] owns
    exactly one such matrix behind [m_matrix]; the copy constructor and
    the assignment copy the matrix, so the transform is its matrix. *)
Record Matrix4 (F : Type) : Type :=
  mkMatrix4 { r0 : Vector4 F; r1 : Vector4 F; r2 : Vector4 F; r3 : Vector4 F }.
Arguments mkMatrix4 {F} _ _ _ _.
Arguments r0 {F} _.
Arguments r1 {F} _.
Arguments r2 {F} _.
Arguments r3 {F} _.

Definition GraphicsTransform (F : Type) : Type := Matrix4 F.

(** What the code takes from the mathematics library and from
    [chemkit/constants.h]: the trigonometric functions, the normalisation
    of a vector and the constant [DegreesToRadians]. *)
Class Trigonometry (F : Type) : Type := {
  cos : F -> F;
  sin : F -> F;
  tan : F -> F;
  normalized : Vector3 F -> Vector3 F;
  DegreesToRadians : F
}.

Section GraphicsTransform.

Context {F : Type} `{Scalar F}.

(** Coefficient access [v[i]] and [m(row, column)].  Eigen does not
    define an access out of range; every index in the code is a literal
    between 0 and 3, and here a larger index reads the last coefficient
    and writes nothing. *)
Definition vget (v : Vector4 F) (i : nat) : F :=
  match i with
  | 0 => c0 v
  | 1 => c1 v
  | 2 => c2 v
  | _ => c3 v
  end.

Definition vset (v : Vector4 F) (i : nat) (a : F) : Vector4 F :=
  match i with
  | 0 => mkVector4 a (c1 v) (c2 v) (c3 v)
  | 1 => mkVector4 (c0 v) a (c2 v) (c3 v)
  | 2 => mkVector4 (c0 v) (c1 v) a (c3 v)
  | 3 => mkVector4 (c0 v) (c1 v) (c2 v) a
  | _ => v
  end.

Definition mget (m : Matrix4 F) (row column : nat) : F :=
  match row with
  | 0 => vget (r0 m) column
  | 1 => vget (r1 m) column
  | 2 => vget (r2 m) column
  | _ => vget (r3 m) column
  end.

Definition mset (m : Matrix4 F) (row column : nat) (a : F) : Matrix4 F :=
  match row with
  | 0 => mkMatrix4 (vset (r0 m) column a) (r1 m) (r2 m) (r3 m)
  | 1 => mkMatrix4 (r0 m) (vset (r1 m) column a) (r2 m) (r3 m)
  | 2 => mkMatrix4 (r0 m) (r1 m) (vset (r2 m) column a) (r3 m)
  | 3 => mkMatrix4 (r0 m) (r1 m) (r2 m) (vset (r3 m) column a)
  | _ => m
  end.

(** [setZero] and [setIdentity]. *)
Definition setZero : Matrix4 F :=
  let o := of_Z 0 in
  mkMatrix4 (mkVector4 o o o o) (mkVector4 o o o o)
            (mkVector4 o o o o) (mkVector4 o o o o).

Definition setIdentity : Matrix4 F :=
  let o := of_Z 0 in
  let i := of_Z 1 in
  mkMatrix4 (mkVector4 i o o o) (mkVector4 o i o o)
            (mkVector4 o o i o) (mkVector4 o o o i).

(** One coefficient of a matrix-vector product: the products of a row
    with the vector, added from left to right. *)
Definition dot4 (r v : Vector4 F) : F :=
  add (add (add (mul (c0 r) (c0 v)) (mul (c1 r) (c1 v)))
           (mul (c2 r) (c2 v)))
      (mul (c3 r) (c3 v)).

Definition mulMatrixVector (m : Matrix4 F) (v : Vector4 F) : Vector4 F :=
  mkVector4 (dot4 (r0 m) v) (dot4 (r1 m) v) (dot4 (r2 m) v) (dot4 (r3 m) v).

(** [GraphicsTransform::GraphicsTransform()]. *)
Definition GraphicsTransform_new : GraphicsTransform F := setZero.

(** [GraphicsTransform::multiplyPoint]. *)
Definition multiplyPoint (t : GraphicsTransform F) (point : Point3 F) : Point3 F :=
  let vector4 := mkVector4 (x point) (y point) (z point) (of_Z 1) in
  let vector4 := mulMatrixVector t vector4 in
  mkVector3 (vget vector4 0) (vget vector4 1) (vget vector4 2).

(** [GraphicsTransform::multiplyVector]. *)
Definition multiplyVector (t : GraphicsTransform F) (vector : Vector3 F) : Vector3 F :=
  let vector4 := mkVector4 (x vector) (y vector) (z vector) (of_Z 0) in
  let vector4 := mulMatrixVector t vector4 in
  mkVector3 (vget vector4 0) (vget vector4 1) (vget vector4 2).

(** [GraphicsTransform::identity]. *)
Definition identity : GraphicsTransform F := setIdentity.

(** [GraphicsTransform::translation]. *)
Definition translation (vector : Vector3 F) : GraphicsTransform F :=
  let transform := identity in
  let transform := mset transform 0 3 (x vector) in
  let transform := mset transform 1 3 (y vector) in
  let transform := mset transform 2 3 (z vector) in
  transform.

Context `{Trigonometry F}.

(** [GraphicsTransform::rotation]. *)
Definition rotation (axis : Vector3 F) (angle : F) : GraphicsTransform F :=
  let transform := identity in
  let v := normalized axis in
  let c := cos (mul angle DegreesToRadians) in
  let s := sin (mul angle DegreesToRadians) in
  let one := of_Z 1 in
  let transform :=
    mset transform 0 0 (add (mul (x v) (x v)) (mul (sub one (mul (x v) (x v))) c)) in
  let transform :=
    mset transform 0 1 (sub (mul (mul (x v) (y v)) (sub one c)) (mul (z v) s)) in
  let transform :=
    mset transform 0 2 (add (mul (mul (x v) (z v)) (sub one c)) (mul (y v) s)) in
  let transform :=
    mset transform 1 0 (add (mul (mul (x v) (y v)) (sub one c)) (mul (z v) s)) in
  let transform :=
    mset transform 1 1 (add (mul (y v) (y v)) (mul (sub one (mul (y v) (y v))) c)) in
  let transform :=
    mset transform 1 2 (sub (mul (mul (y v) (z v)) (sub one c)) (mul (x v) s)) in
  let transform :=
    mset transform 2 0 (sub (mul (mul (x v) (z v)) (sub one c)) (mul (y v) s)) in
  let transform :=
    mset transform 2 1 (add (mul (mul (y v) (z v)) (sub one c)) (mul (x v) s)) in
  let transform :=
    mset transform 2 2 (add (mul (z v) (z v)) (mul (sub one (mul (z v) (z v))) c)) in
  transform.

(** [GraphicsTransform::perspective]. *)
Definition perspective (angle aspectRatio nearDistance farDistance : F)
  : GraphicsTransform F :=
  let transform := GraphicsTransform_new in
  let f := div (of_Z 1) (tan (div angle (of_Z 2))) in
  let transform := mset transform 0 0 (div f aspectRatio) in
  let transform := mset transform 1 1 f in
  let transform :=
    mset transform 2 2 (div (add nearDistance farDistance)
                            (sub nearDistance farDistance)) in
  let transform :=
    mset transform 2 3 (div (mul (mul (of_Z 2) nearDistance) farDistance)
                            (sub nearDistance farDistance)) in
  let transform := mset transform 3 2 (of_Z (-1)) in
  transform.

End GraphicsTransform.

(** *** Single precision

    [float] is IEEE 754 binary32: 24 bits of precision, exponents below
    128, rounding to nearest even. *)
Definition float : Type := spec_float.

Definition float_prec : Z := 24.
Definition float_emax : Z := 128.

#[export] Instance float_Scalar : Scalar float := {
  of_Z n := binary_normalize float_prec float_emax n 0 false;
  add := SFadd float_prec float_emax;
  sub := SFsub float_prec float_emax;
  mul := SFmul float_prec float_emax;
  div := SFdiv float_prec float_emax;
  opp := SFopp
}.

(** A number, as opposed to an infinity or a NaN. *)
Definition is_finite (a : float) : bool :=
  match a with
  | S754_zero _ => true
  | S754_finite _ _ _ => true
  | S754_infinity _ => false
  | S754_nan => false
  end.

Definition finite3 (v : Vector3 float) : bool :=
  is_finite (x v) && is_finite (y v) && is_finite (z v).

Definition float_zero : float := S754_zero false.
Definition float_infinity : float := S754_infinity false.

(** *** Exact arithmetic

    The same code read over the real numbers: every [float] operation
    without its rounding, the library functions [cos], [sin], [tan] as the
    mathematical ones. *)
#[export] Instance R_Scalar : Scalar R := {
  of_Z := IZR;
  add := Rplus;
  sub := Rminus;
  mul := Rmult;
  div := Rdiv;
  opp := Ropp
}.

(** Eigen's [normalized()]: the vector divided by its norm. *)
Definition R_normalized (v : Vector3 R) : Vector3 R :=
  let n := sqrt (x v * x v + y v * y v + z v * z v)%R in
  mkVector3 (x v / n)%R (y v / n)%R (z v / n)%R.

(** Modelled from the spec: [chemkit::constants::DegreesToRadians]
    (chemkit/constants.h is not part of the sources at hand), the factor
    that converts an angle in degrees into radians. *)
Definition R_DegreesToRadians : R := (PI / 180)%R.

#[export] Instance R_Trigonometry : Trigonometry R := {
  cos := Rtrigo_def.cos;
  sin := Rtrigo_def.sin;
  tan := Rtrigo1.tan;
  normalized := R_normalized;
  DegreesToRadians := R_DegreesToRadians
}.

(** ** A small implementation of the imports

    A topology that stores its four sequences, a parameter table that
    lists the atoms it has no entry for, and a per-calculation set-up that
    fails without a table or on such an atom and otherwise binds the
    number of atoms of the term. *)
Record SimpleTopology : Type := {
  st_bonded : list BondedInteraction;
  st_angle : list AngleInteraction;
  st_torsion : list TorsionInteraction;
  st_nonbonded : list NonbondedInteraction
}.

Definition simple_setup (t : SimpleTopology) (p : option (list N))
    (k : CalculationKind) (atoms : list N) (c : list Z) : list Z * bool :=
  match p with
  | None => (c, false)
  | Some untyped =>
      if existsb (fun a => existsb (N.eqb a) untyped) atoms
      then (c, false)
      else ([Z.of_nat (arity k)], true)
  end.

Definition simple_imports : ForceFieldImports := {|
  Topology := SimpleTopology;
  bondedInteractions := st_bonded;
  angleInteractions := st_angle;
  torsionInteractions := st_torsion;
  nonbondedInteractions := st_nonbonded;
  OplsParameters := list N;
  OplsParameters_new := fun _ => [9%N];
  Coefficients := list Z;
  unbound := [];
  OplsCalculation_setup := simple_setup;
  AnalyticalGradient := 1%Z;
  Energy := Z;
  energy_zero := 0%Z;
  energy_add := Z.add;
  Gradient := list Z;
  gradient_zero := [];
  gradient_add := @app Z;
  calc_energy := fun _ _ c => fold_right Z.add 0%Z c;
  calc_gradient := fun _ _ c => c
|}.

(** A plugin manager that knows the OPLS plugin, and one that knows no
    plugin. *)
Definition opls_registered : PluginManager :=
  fun n => if String.eqb n "opls" then Some {| dataPath := "/usr/share/chemkit/" |}
           else None.

Definition nothing_registered : PluginManager := fun _ => None.

(** Ethane-like fragment: two bonds, one angle, no torsion, one nonbonded
    pair; atom 9 has no parameters. *)
Definition small_topology : SimpleTopology := {|
  st_bonded := [(0, 1); (1, 9)]%N;
  st_angle := [(0, 1, 9)]%N;
  st_torsion := [];
  st_nonbonded := [(0, 2)]%N
|}.

Definition one_bond_topology : SimpleTopology := {|
  st_bonded := [(0, 1)]%N;
  st_angle := [];
  st_torsion := [];
  st_nonbonded := []
|}.

Definition empty_topology : SimpleTopology := {|
  st_bonded := []; st_angle := []; st_torsion := []; st_nonbonded := []
|}.

(** A force field of the small implementation, constructed with the OPLS
    plugin registered, with a topology attached. *)
Definition simple_force_field (t : SimpleTopology) : @OplsForceField simple_imports :=
  @setTopology simple_imports (@OplsForceField_new simple_imports opls_registered)
               (Some t).

(** A force field of the small implementation that was set up once on
    the small topology and then given another topology. *)
Definition used_force_field (t : SimpleTopology) : @OplsForceField simple_imports :=
  @setTopology simple_imports
    (fst (@setup simple_imports (simple_force_field small_topology))) (Some t).

(** ** Further operations of the force field *)

Section ForceFieldCalls.

Context `{ForceFieldImports}.

(** [n] calls of [setup] in a row, each on the force field the previous
    one left. *)
Definition setup_times (n : nat) (ff : OplsForceField) : OplsForceField :=
  Nat.iter n (fun ff => fst (setup ff)) ff.

End ForceFieldCalls.

(** ** Further operations of the graphics transform *)

Section GraphicsTransformProducts.

Context {F : Type} `{Scalar F}.

(** Column [j] of a matrix. *)
Definition column (m : Matrix4 F) (j : nat) : Vector4 F :=
  mkVector4 (vget (r0 m) j) (vget (r1 m) j) (vget (r2 m) j) (vget (r3 m) j).

(** The product of two matrices: each coefficient is a row of the left
    one times a column of the right one, added as in [dot4]. *)
Definition mulMatrixMatrix (a b : Matrix4 F) : Matrix4 F :=
  let row r :=
    mkVector4 (dot4 r (column b 0)) (dot4 r (column b 1))
              (dot4 r (column b 2)) (dot4 r (column b 3)) in
  mkMatrix4 (row (r0 a)) (row (r1 a)) (row (r2 a)) (row (r3 a)).

(** [GraphicsTransform::multiply(const GraphicsTransform &)]. *)
Definition multiply (t transform : GraphicsTransform F) : GraphicsTransform F :=
  mulMatrixMatrix t transform.

(** [GraphicsTransform::multiply] on a vector of four coefficients. *)
Definition multiply4 (t : GraphicsTransform F) (vector : Vector4 F) : Vector4 F :=
  mulMatrixVector t vector.

(** [GraphicsTransform::frustum]. *)
Definition frustum (left right top bottom nearDistance farDistance : F)
  : GraphicsTransform F :=
  let transform := GraphicsTransform_new in
  let transform :=
    mset transform 0 0 (div (mul (of_Z 2) nearDistance) (sub right left)) in
  let transform :=
    mset transform 1 1 (div (mul (of_Z 2) nearDistance) (sub top bottom)) in
  let transform :=
    mset transform 2 0 (div (add right left) (sub right left)) in
  let transform :=
    mset transform 2 1 (div (add top bottom) (sub top bottom)) in
  let transform :=
    mset transform 2 2 (div (opp (add farDistance nearDistance))
                            (sub farDistance nearDistance)) in
  let transform :=
    mset transform 2 3 (div (opp (mul (mul (of_Z 2) farDistance) nearDistance))
                            (sub farDistance nearDistance)) in
  let transform := mset transform 3 2 (of_Z (-1)) in
  transform.

(** [GraphicsTransform::orthographic]. *)
Definition orthographic (left right top bottom nearDistance farDistance : F)
  : GraphicsTransform F :=
  let transform := GraphicsTransform_new in
  let transform := mset transform 0 0 (div (of_Z 2) (sub right left)) in
  let transform :=
    mset transform 0 3 (div (opp (add right left)) (sub right left)) in
  let transform := mset transform 1 1 (div (of_Z 2) (sub top bottom)) in
  let transform :=
    mset transform 1 3 (div (opp (add top bottom)) (sub top bottom)) in
  let transform :=
    mset transform 2 2 (div (opp (of_Z 2)) (sub farDistance nearDistance)) in
  let transform :=
    mset transform 2 3 (div (opp (add farDistance nearDistance))
                            (sub farDistance nearDistance)) in
  let transform := mset transform 3 3 (of_Z 1) in
  transform.

End GraphicsTransformProducts.

(** *** Vocabulary for the statements over the reals *)

(** Sum of two vectors, coordinate by coordinate. *)
Definition R_plus3 (u v : Vector3 R) : Vector3 R :=
  mkVector3 (x u + x v)%R (y u + y v)%R (z u + z v)%R.

(** Square of the length of a vector. *)
Definition R_squaredNorm (v : Vector3 R) : R :=
  (x v * x v + y v * y v + z v * z v)%R.

(** The fourth column of a transform without its last coefficient: what
    the transform adds to every point. *)
Definition R_offset (t : GraphicsTransform R) : Vector3 R :=
  mkVector3 (c3 (r0 t)) (c3 (r1 t)) (c3 (r2 t)).

(** A transform whose last row is 0 0 0 1. *)
Definition R_affine (t : GraphicsTransform R) : Prop :=
  r3 t = mkVector4 0%R 0%R 0%R 1%R.

(** The z axis, and a plugin manager that knows another force field
    only, for instances. *)
Definition R_z_axis : Vector3 R := mkVector3 0%R 0%R 1%R.

Definition mmff_registered : PluginManager :=
  fun n => if String.eqb n "mmff" then Some {| dataPath := "/usr/share/mmff/" |}
           else None.

(** *** Vocabulary for the statements in single precision *)

Definition is_zero (a : float) : bool :=
  match a with
  | S754_zero _ => true
  | _ => false
  end.

Definition is_infinite (a : float) : bool :=
  match a with
  | S754_infinity _ => true
  | _ => false
  end.

Definition is_nan (a : float) : bool :=
  match a with
  | S754_nan => true
  | _ => false
  end.

(** Coordinate [i] of a point or vector: x, y, z for 0, 1, 2. *)
Definition coordinate {F : Type} (v : Vector3 F) (i : nat) : F :=
  match i with
  | 0 => x v
  | 1 => y v
  | _ => z v
  end.

(** *** Proof steps for the transforms over the reals *)

(** Reduces the code of a transform to its sixteen coefficients. *)
Ltac unfold_transform :=
  lazy beta iota zeta delta
    [multiply multiply4 mulMatrixMatrix mulMatrixVector column dot4
     multiplyPoint multiplyVector translation rotation perspective frustum
     orthographic identity setIdentity GraphicsTransform_new setZero
     mget vget mset vset r0 r1 r2 r3 c0 c1 c2 c3 x y z
     R_plus3 R_offset R_squaredNorm
     cos sin tan mul add sub div opp of_Z normalized DegreesToRadians
     R_Trigonometry R_Scalar].


(** Equality of matrices and vectors, coefficient by coefficient. *)
Ltac matrix_eq tac :=
  apply (f_equal4 mkMatrix4); apply (f_equal4 mkVector4); tac.

Ltac vector3_eq tac := apply (f_equal3 mkVector3); tac.

Ltac ring_or_nsatz := try ring; nsatz.

(** * Properties of the force field *)

Section ForceFieldProperties.

Context `{ForceFieldImports}.

Lemma set_calculations_same (ff : OplsForceField) :
  set_calculations ff (calculations ff) = ff.
Proof. destruct ff; reflexivity. Qed.

(** A loop that adds one calculation per element appends their images,
    in order, and touches nothing else. *)
Lemma fold_addCalculation (A : Type) (f : OplsForceField -> A -> OplsForceField)
    (mk : A -> ForceFieldCalculation) :
  (forall ff i, f ff i = addCalculation ff (mk i)) ->
  forall (l : list A) (ff : OplsForceField),
    fold_left f l ff = set_calculations ff (calculations ff ++ map mk l).
Proof.
  intros Hf l; induction l as [| i l IH]; intros ff; simpl.
  - rewrite app_nil_r. symmetry. apply set_calculations_same.
  - rewrite IH, Hf. unfold addCalculation, set_calculations; simpl.
    rewrite <- app_assoc. reflexivity.
Qed.

(** The last loop calls the set-up of every calculation, whatever the
    earlier ones returned, and [ok] ends as the conjunction. *)
Lemma setup_loop_spec (t : Topology) (p : option OplsParameters) :
  forall cs ok,
    setup_loop t p cs ok =
    (map (after_setup t p) cs, ok && forallb (setup_succeeds t p) cs).
Proof.
  induction cs as [| c cs IH]; intros ok; cbn [setup_loop map forallb].
  - rewrite andb_true_r. reflexivity.
  - unfold after_setup at 1, setup_succeeds at 1.
    destruct (OplsCalculation_setup_on t p c) as [c1 b].
    rewrite IH. cbn [fst snd]. destruct b, ok; reflexivity.
Qed.

(** [setup] with a topology attached, in closed form. *)
Lemma setup_attached (ff : OplsForceField) (t : Topology) :
  topology ff = Some t ->
  setup ff =
  (set_calculations ff
     (map (after_setup t (m_parameters ff)) (calculations ff ++ enumerate t)),
   forallb (setup_succeeds t (m_parameters ff)) (calculations ff ++ enumerate t)).
Proof.
  intros Ht. unfold setup. rewrite Ht.
  rewrite (fold_addCalculation _ _
             (fun i : BondedInteraction =>
                OplsBondStrechCalculation (fst i) (snd i))
             (fun _ _ => eq_refl) (bondedInteractions t)).
  rewrite (fun Hf => fold_addCalculation _ _
             (fun i : AngleInteraction =>
                let '(i0, i1, i2) := i in OplsAngleBendCalculation i0 i1 i2)
             Hf (angleInteractions t))
    by (intros ? [[? ?] ?]; reflexivity).
  rewrite (fun Hf => fold_addCalculation _ _
             (fun i : TorsionInteraction =>
                let '(i0, i1, i2, i3) := i in OplsTorsionCalculation i0 i1 i2 i3)
             Hf (torsionInteractions t))
    by (intros ? [[[? ?] ?] ?]; reflexivity).
  rewrite (fold_addCalculation _ _
             (fun i : NonbondedInteraction =>
                OplsNonbondedCalculation (fst i) (snd i))
             (fun _ _ => eq_refl) (nonbondedInteractions t)).
  simpl. rewrite setup_loop_spec. simpl.
  unfold enumerate. rewrite <- !app_assoc. reflexivity.
Qed.

Lemma signature_after_setup (t : Topology) (p : option OplsParameters) c :
  signature (after_setup t p c) = signature c.
Proof. reflexivity. Qed.

Lemma map_signature_after_setup (t : Topology) (p : option OplsParameters) cs :
  map signature (map (after_setup t p) cs) = map signature cs.
Proof.
  rewrite map_map. apply map_ext. intros c. apply signature_after_setup.
Qed.

Lemma signature_enumerate (t : Topology) :
  map signature (enumerate t) = interaction_signatures t.
Proof.
  unfold enumerate, interaction_signatures.
  rewrite !map_app, !map_map.
  apply (f_equal2 (@app _)); [| apply (f_equal2 (@app _)); [| apply (f_equal2 (@app _))]];
    apply map_ext.
  - reflexivity.
  - intros [[? ?] ?]; reflexivity.
  - intros [[[? ?] ?] ?]; reflexivity.
  - reflexivity.
Qed.

Lemma length_enumerate (t : Topology) :
  List.length (enumerate t) = interaction_count t.
Proof.
  unfold enumerate, interaction_count.
  rewrite !length_app, !length_map. lia.
Qed.

Lemma arity_interaction_signatures (t : Topology) :
  Forall (fun s => List.length (snd s) = arity (fst s)) (interaction_signatures t).
Proof.
  unfold interaction_signatures.
  repeat (apply Forall_app; split); apply Forall_forall;
    intros s Hs; apply in_map_iff in Hs; destruct Hs as [i [<- _]].
  - reflexivity.
  - destruct i as [[? ?] ?]; reflexivity.
  - destruct i as [[[? ?] ?] ?]; reflexivity.
  - reflexivity.
Qed.

Lemma count_after_setup (ff : OplsForceField) (t : Topology) :
  topology ff = Some t ->
  count (fst (setup ff)) = count ff + interaction_count t.
Proof.
  intros Ht. rewrite (setup_attached ff t Ht). unfold count; simpl.
  rewrite length_map, length_app, length_enumerate. reflexivity.
Qed.

(** [setup] changes the collection of calculations and nothing else. *)
Lemma setup_keeps (ff : OplsForceField) :
  topology (fst (setup ff)) = topology ff
  /\ flags (fst (setup ff)) = flags ff
  /\ m_parameters (fst (setup ff)) = m_parameters ff
  /\ name (fst (setup ff)) = name ff.
Proof.
  destruct (topology ff) as [t |] eqn:Ht.
  - rewrite (setup_attached ff t Ht); simpl. auto.
  - unfold setup. rewrite Ht. simpl. auto.
Qed.

(** C1. Enumeration fidelity: with a topology attached, [setup] appends
    one calculation per interaction tuple, B + A + T + N in all, in the
    order bonded, angle, torsion, nonbonded and inside each sequence in
    the topology's order; each calculation has the kind and the atom
    indices of its tuple, hence its number of atoms. *)
Theorem setup_enumeration_fidelity (ff : OplsForceField) (t : Topology) :
  topology ff = Some t ->
  count (fst (setup ff)) = count ff + interaction_count t
  /\ map signature (calculations (fst (setup ff)))
     = map signature (calculations ff) ++ interaction_signatures t
  /\ Forall (fun s => List.length (snd s) = arity (fst s))
            (interaction_signatures t)
  /\ (calculations ff = [] ->
      count (fst (setup ff)) = interaction_count t
      /\ map signature (calculations (fst (setup ff))) = interaction_signatures t).
Proof.
  intros Ht.
  assert (Hsig : map signature (calculations (fst (setup ff)))
                 = map signature (calculations ff) ++ interaction_signatures t).
  { rewrite (setup_attached ff t Ht); simpl.
    rewrite map_signature_after_setup, map_app, signature_enumerate.
    reflexivity. }
  pose proof (count_after_setup ff t Ht) as Hcount.
  split; [exact Hcount |]. split; [exact Hsig |].
  split; [apply arity_interaction_signatures |].
  intros Hempty. split.
  - rewrite Hcount. unfold count. rewrite Hempty. reflexivity.
  - rewrite Hsig, Hempty. reflexivity.
Qed.

Lemma setup_returns_true_iff (ff : OplsForceField) (t : Topology) :
  topology ff = Some t ->
  (snd (setup ff) = true <->
   forall c, In c (calculations ff ++ enumerate t) ->
             setup_succeeds t (m_parameters ff) c = true).
Proof.
  intros Ht. rewrite (setup_attached ff t Ht). cbn [snd].
  apply forallb_forall.
Qed.

Lemma setup_returns_false_iff (ff : OplsForceField) (t : Topology) :
  topology ff = Some t ->
  (snd (setup ff) = false <->
   exists c, In c (calculations ff ++ enumerate t)
             /\ setup_succeeds t (m_parameters ff) c = false).
Proof.
  intros Ht. rewrite (setup_attached ff t Ht). cbn [snd].
  rewrite <- not_true_iff_false, forallb_forall. split.
  - intros Hnot.
    destruct (existsb (fun c => negb (setup_succeeds t (m_parameters ff) c))
                      (calculations ff ++ enumerate t)) eqn:E.
    + apply existsb_exists in E. destruct E as [c [Hin Hc]].
      exists c. split; [exact Hin |].
      apply negb_true_iff. exact Hc.
    + exfalso. apply Hnot. intros c Hin.
      destruct (setup_succeeds t (m_parameters ff) c) eqn:Ec; [reflexivity |].
      assert (Hex : existsb
                      (fun c => negb (setup_succeeds t (m_parameters ff) c))
                      (calculations ff ++ enumerate t) = true).
      { apply existsb_exists. exists c. rewrite Ec. auto. }
      congruence.
  - intros [c [Hin Hc]] Hall. specialize (Hall c Hin). congruence.
Qed.

(** The outcome of a set-up call is the value the imported
    [OplsCalculation::setup] returns on the kind, the atoms and the
    coefficients of the calculation. *)
Lemma setup_succeeds_interface (t : Topology) (p : option OplsParameters)
    (c : ForceFieldCalculation) :
  setup_succeeds t p c
  = snd (OplsCalculation_setup t p (calc_kind c) (calc_atoms c)
           (calc_parameters c)).
Proof. reflexivity. Qed.

(** An enumerated calculation is unbound and has the kind and atoms of an
    interaction tuple of the topology. *)
Lemma enumerate_unbound (t : Topology) (c : ForceFieldCalculation) :
  In c (enumerate t) ->
  calc_parameters c = unbound
  /\ In (calc_kind c, calc_atoms c) (interaction_signatures t).
Proof.
  intros Hin. split.
  - unfold enumerate in Hin.
    repeat (apply in_app_or in Hin; destruct Hin as [Hin | Hin]);
      apply in_map_iff in Hin; destruct Hin as [i [<- _]].
    + reflexivity.
    + destruct i as [[? ?] ?]; reflexivity.
    + destruct i as [[[? ?] ?] ?]; reflexivity.
    + reflexivity.
  - rewrite <- signature_enumerate. apply (in_map signature _ _ Hin).
Qed.

(** Each interaction tuple of the topology has its enumerated
    calculation. *)
Lemma interaction_signatures_enumerated (t : Topology)
    (k : CalculationKind) (atoms : list N) :
  In (k, atoms) (interaction_signatures t) ->
  exists c, In c (enumerate t)
            /\ calc_kind c = k /\ calc_atoms c = atoms
            /\ calc_parameters c = unbound.
Proof.
  intros Hin. rewrite <- signature_enumerate in Hin.
  apply in_map_iff in Hin. destruct Hin as [c [Hsig Hc]].
  exists c. unfold signature in Hsig. injection Hsig as Hk Ha.
  repeat split; try assumption.
  apply (enumerate_unbound t c Hc).
Qed.

(** C2, as the code has it.  With a topology attached, [setup] returns
    true exactly when the imported set-up of a calculation returned true
    on every calculation its last loop runs over: the calculations
    enumerated from the topology and, before them, those the force field
    already held; it returns false exactly when one of these calls
    returned false.  On a force field that holds no calculation when
    [setup] is called, that is: true exactly when the call returns true
    on the kind and atoms of every interaction tuple of the topology,
    from unbound coefficients. *)
Theorem setup_true_iff_all_succeed (ff : OplsForceField) (t : Topology) :
  topology ff = Some t ->
  (snd (setup ff) = true <->
   forall c, In c (calculations ff ++ enumerate t) ->
             snd (OplsCalculation_setup t (m_parameters ff) (calc_kind c)
                    (calc_atoms c) (calc_parameters c)) = true)
  /\ (snd (setup ff) = false <->
      exists c, In c (calculations ff ++ enumerate t)
                /\ snd (OplsCalculation_setup t (m_parameters ff) (calc_kind c)
                          (calc_atoms c) (calc_parameters c)) = false)
  /\ (calculations ff = [] ->
      (snd (setup ff) = true <->
       forall k atoms, In (k, atoms) (interaction_signatures t) ->
                       snd (OplsCalculation_setup t (m_parameters ff) k atoms
                              unbound) = true)).
Proof.
  intros Ht.
  pose proof (setup_returns_true_iff ff t Ht) as Htrue.
  pose proof (setup_returns_false_iff ff t Ht) as Hfalse.
  split; [| split].
  - rewrite Htrue. split; intros Hall c Hin; specialize (Hall c Hin);
      rewrite setup_succeeds_interface in *; exact Hall.
  - rewrite Hfalse. split; intros [c [Hin Hc]]; exists c; split;
      try exact Hin; rewrite setup_succeeds_interface in *; exact Hc.
  - intros Hempty. rewrite Htrue, Hempty. cbn [app]. split.
    + intros Hall k atoms Hin.
      destruct (interaction_signatures_enumerated t k atoms Hin)
        as [c (Hc & Hk & Ha & Hu)].
      specialize (Hall c Hc). rewrite setup_succeeds_interface in Hall.
      rewrite Hk, Ha, Hu in Hall. exact Hall.
    + intros Hall c Hc. rewrite setup_succeeds_interface.
      destruct (enumerate_unbound t c Hc) as [Hu Hsig].
      rewrite Hu. apply Hall. exact Hsig.
Qed.


(** C4. Without a topology [setup] returns false at once and leaves the
    force field, hence its calculations, as they were.  With a topology
    it always goes through the enumeration, and a false result then
    comes from the failure of some calculation's own set-up. *)
Theorem setup_without_topology (ff : OplsForceField) :
  (topology ff = None -> setup ff = (ff, false))
  /\ (forall t, topology ff = Some t ->
       count (fst (setup ff)) = count ff + interaction_count t
       /\ (snd (setup ff) = false ->
           exists c, In c (calculations ff ++ enumerate t)
                     /\ setup_succeeds t (m_parameters ff) c = false)).
Proof.
  split.
  - intros Hnone. unfold setup. rewrite Hnone. reflexivity.
  - intros t Ht. split; [apply (count_after_setup ff t Ht) |].
    apply (proj1 (setup_returns_false_iff ff t Ht)).
Qed.

Lemma after_setup_twice (t : Topology) (p : option OplsParameters) :
  setup_call_idempotent ->
  forall c, after_setup t p (after_setup t p c) = after_setup t p c.
Proof.
  intros Hidem c. unfold after_setup, OplsCalculation_setup_on, setCalculationSetup.
  cbn [fst snd calc_kind calc_atoms calc_parameters calc_isSetup].
  rewrite Hidem. reflexivity.
Qed.

Lemma setup_succeeds_after_setup (t : Topology) (p : option OplsParameters) :
  setup_call_idempotent ->
  forall c, setup_succeeds t p (after_setup t p c) = setup_succeeds t p c.
Proof.
  intros Hidem c. unfold setup_succeeds, after_setup, OplsCalculation_setup_on,
    setCalculationSetup.
  cbn [fst snd calc_kind calc_atoms calc_parameters calc_isSetup].
  rewrite Hidem. reflexivity.
Qed.

Lemma forallb_setup_succeeds_after_setup (t : Topology) (p : option OplsParameters) :
  setup_call_idempotent ->
  forall cs, forallb (setup_succeeds t p) (map (after_setup t p) cs)
             = forallb (setup_succeeds t p) cs.
Proof.
  intros Hidem cs. induction cs as [| c cs IH]; cbn [map forallb].
  - reflexivity.
  - rewrite IH, (setup_succeeds_after_setup t p Hidem). reflexivity.
Qed.

Lemma setTopology_same (ff : OplsForceField) (t : Topology) :
  topology ff = Some t -> setTopology ff (Some t) = ff.
Proof. destruct ff; simpl; intros ->; reflexivity. Qed.

(** What a second [setup] does to the result of a first one, after the
    topology [t2] has been attached. *)
Lemma resetup_closed_form (ff : OplsForceField) (t t2 : Topology) :
  topology ff = Some t ->
  calculations (fst (setup (setTopology (fst (setup ff)) (Some t2))))
  = map (after_setup t2 (m_parameters ff))
        (calculations (fst (setup ff)) ++ enumerate t2).
Proof.
  intros Ht.
  rewrite (setup_attached (setTopology (fst (setup ff)) (Some t2)) t2 eq_refl).
  cbn [fst calculations set_calculations setTopology m_parameters].
  destruct (setup_keeps ff) as (_ & _ & Hp & _). rewrite Hp. reflexivity.
Qed.

(** C5, as the code has it.  A further [setup] does not discard the
    calculations of the previous one: it appends the enumeration of the
    topology then attached after them and sets up the whole collection.
    So two consecutive calls on the same topology leave the kinds and
    atom tuples of the first call twice; when the force field held no
    calculation before the first call and the set-up of a calculation
    is idempotent, the collection after the second call is the
    collection after the first one followed by a copy of it, and both
    calls return the same value. *)
Theorem resetup_appends (ff : OplsForceField) (t : Topology) :
  topology ff = Some t ->
  (forall t2,
      count (fst (setup (setTopology (fst (setup ff)) (Some t2))))
      = count (fst (setup ff)) + interaction_count t2
      /\ map signature
             (calculations (fst (setup (setTopology (fst (setup ff)) (Some t2)))))
         = map signature (calculations (fst (setup ff)))
           ++ interaction_signatures t2)
  /\ count (fst (setup (fst (setup ff))))
     = count ff + 2 * interaction_count t
  /\ map signature (calculations (fst (setup (fst (setup ff)))))
     = map signature (calculations ff)
       ++ interaction_signatures t ++ interaction_signatures t
  /\ (calculations ff = [] -> setup_call_idempotent ->
      calculations (fst (setup (fst (setup ff))))
      = calculations (fst (setup ff)) ++ calculations (fst (setup ff))
      /\ snd (setup (fst (setup ff))) = snd (setup ff)).
Proof.
  intros Ht.
  destruct (setup_keeps ff) as (Ht1 & _ & Hp1 & _). rewrite Ht in Ht1.
  assert (Hfirst : calculations (fst (setup ff))
                   = map (after_setup t (m_parameters ff))
                         (calculations ff ++ enumerate t)).
  { rewrite (setup_attached ff t Ht). reflexivity. }
  assert (Hsecond : calculations (fst (setup (fst (setup ff))))
                    = map (after_setup t (m_parameters ff))
                          (calculations (fst (setup ff)) ++ enumerate t)).
  { rewrite <- (resetup_closed_form ff t t Ht).
    rewrite (setTopology_same _ t Ht1). reflexivity. }
  split; [| split; [| split]].
  - intros t2. pose proof (resetup_closed_form ff t t2 Ht) as Hcs. split.
    + unfold count. rewrite Hcs, length_map, length_app, length_enumerate.
      reflexivity.
    + rewrite Hcs, map_signature_after_setup, map_app, signature_enumerate.
      reflexivity.
  - unfold count. rewrite Hsecond, Hfirst.
    rewrite !length_map, !length_app, !length_map, !length_app, length_enumerate.
    lia.
  - rewrite Hsecond, map_signature_after_setup, map_app, Hfirst.
    rewrite map_signature_after_setup, map_app, signature_enumerate.
    rewrite <- app_assoc. reflexivity.
  - intros Hempty Hidem. split.
    + rewrite Hsecond, Hfirst, Hempty. cbn [app].
      rewrite map_app, map_map. f_equal.
      apply map_ext. apply after_setup_twice. exact Hidem.
    + rewrite (setup_attached (fst (setup ff)) t Ht1), Hp1. cbn [snd].
      rewrite Hfirst, Hempty. cbn [app].
      rewrite (setup_attached ff t Ht), Hempty. cbn [snd app].
      rewrite forallb_app, (forallb_setup_succeeds_after_setup _ _ Hidem).
      apply andb_diag.
Qed.

(** C6, as the code has it.  The constructor always yields a force
    field.  When the OPLS plugin is not registered, so that the
    parameter file cannot be located, the force field has no parameter
    table, the analytic-gradient flag, no topology and no calculation,
    and nothing is reported; a later [setup] hands the missing table to
    the set-up of every calculation and returns the conjunction of their
    results.  When the plugin is registered the table is the one
    [OplsParameters] makes of the file oplsaa.prm in the plugin's data
    directory. *)
Theorem construction_with_or_without_plugin (pm : PluginManager) :
  (plugin pm "opls" = None ->
   OplsForceField_new pm
   = {| name := "opls"; topology := None; calculations := [];
        flags := AnalyticalGradient; m_parameters := None |}
   /\ forall t,
       setup (setTopology (OplsForceField_new pm) (Some t))
       = (set_calculations (setTopology (OplsForceField_new pm) (Some t))
            (map (after_setup t None) (enumerate t)),
          forallb (setup_succeeds t None) (enumerate t)))
  /\ (forall oplsPlugin, plugin pm "opls" = Some oplsPlugin ->
       OplsForceField_new pm
       = {| name := "opls"; topology := None; calculations := [];
            flags := AnalyticalGradient;
            m_parameters :=
              Some (OplsParameters_new (dataPath oplsPlugin ++ "oplsaa.prm")) |}).
Proof.
  split.
  - intros Hnone.
    assert (Hnew : OplsForceField_new pm
                   = {| name := "opls"; topology := None; calculations := [];
                        flags := AnalyticalGradient; m_parameters := None |}).
    { unfold OplsForceField_new. rewrite Hnone. reflexivity. }
    split; [exact Hnew |].
    intros t.
    rewrite (setup_attached (setTopology (OplsForceField_new pm) (Some t)) t
               eq_refl).
    rewrite Hnew. reflexivity.
  - intros oplsPlugin Hsome. unfold OplsForceField_new. rewrite Hsome.
    reflexivity.
Qed.

(** C7, as the code has it.  With a topology whose four sequences are
    empty, [setup] adds no calculation: the collection keeps its count,
    kinds and atoms, and the value returned is true exactly when the
    imported set-up returns true on every calculation the force field
    already held.  On a force field that holds no calculation, as after
    its construction, [setup] therefore returns true, changes nothing and
    leaves an empty collection. *)
Theorem setup_empty_topology (ff : OplsForceField) (t : Topology) :
  topology ff = Some t ->
  bondedInteractions t = [] ->
  angleInteractions t = [] ->
  torsionInteractions t = [] ->
  nonbondedInteractions t = [] ->
  count (fst (setup ff)) = count ff
  /\ map signature (calculations (fst (setup ff)))
     = map signature (calculations ff)
  /\ (snd (setup ff) = true <->
      forall c, In c (calculations ff) ->
                snd (OplsCalculation_setup t (m_parameters ff) (calc_kind c)
                       (calc_atoms c) (calc_parameters c)) = true)
  /\ (calculations ff = [] ->
      setup ff = (ff, true)
      /\ calculations (fst (setup ff)) = []
      /\ count (fst (setup ff)) = 0).
Proof.
  intros Ht Hb Ha Htor Hn.
  assert (Henum : enumerate t = []).
  { unfold enumerate. rewrite Hb, Ha, Htor, Hn. reflexivity. }
  assert (Hsetup : setup ff
                   = (set_calculations ff
                        (map (after_setup t (m_parameters ff)) (calculations ff)),
                      forallb (setup_succeeds t (m_parameters ff))
                              (calculations ff))).
  { rewrite (setup_attached ff t Ht), Henum, app_nil_r. reflexivity. }
  rewrite Hsetup. cbn [fst snd calculations set_calculations].
  split; [| split; [| split]].
  - unfold count. cbn [calculations set_calculations]. apply length_map.
  - apply map_signature_after_setup.
  - rewrite forallb_forall. split; intros Hall c Hin; specialize (Hall c Hin);
      rewrite setup_succeeds_interface in *; exact Hall.
  - intros Hempty. rewrite Hempty. cbn [map forallb].
    rewrite <- Hempty at 1. rewrite set_calculations_same.
    unfold count. cbn [calculations set_calculations].
    repeat split.
Qed.

Lemma apply_operation_flags (ff : OplsForceField) (op : Operation) :
  flags (apply_operation ff op) = flags ff.
Proof.
  destruct op; cbn [apply_operation].
  - reflexivity.
  - apply (setup_keeps ff).
  - reflexivity.
Qed.

Lemma run_flags (ops : list Operation) :
  forall ff, flags (run ops ff) = flags ff.
Proof.
  induction ops as [| op ops IH]; intros ff; cbn [run fold_left].
  - reflexivity.
  - fold (run ops (apply_operation ff op)).
    rewrite IH. apply apply_operation_flags.
Qed.

Lemma OplsForceField_new_flags (pm : PluginManager) :
  flags (OplsForceField_new pm) = AnalyticalGradient.
Proof.
  unfold OplsForceField_new. destruct (plugin pm "opls"); reflexivity.
Qed.

(** C8. The constructor sets the analytic-gradient flag, with or
    without the plugin and its parameter file, and after any sequence of
    attaching a topology, [setup] and [compute] the flags word is still
    that flag: the force field advertises the capability throughout. *)
Theorem analytical_gradient_always_advertised
    (pm : PluginManager) (ops : list Operation) :
  flags (OplsForceField_new pm) = AnalyticalGradient
  /\ flags (run ops (OplsForceField_new pm)) = AnalyticalGradient
  /\ testFlag (run ops (OplsForceField_new pm)) AnalyticalGradient = true.
Proof.
  assert (Hrun : flags (run ops (OplsForceField_new pm)) = AnalyticalGradient).
  { rewrite run_flags. apply OplsForceField_new_flags. }
  split; [apply OplsForceField_new_flags |]. split; [exact Hrun |].
  unfold testFlag. rewrite Hrun, Z.land_diag. apply Z.eqb_refl.
Qed.

End ForceFieldProperties.

(** ** The force field on the small implementation *)

Lemma simple_setup_idempotent : @setup_call_idempotent simple_imports.
Proof.
  intros t p k atoms c. cbn [OplsCalculation_setup simple_imports].
  unfold simple_setup. destruct p as [untyped |]; [| reflexivity].
  destruct (existsb (fun a => existsb (N.eqb a) untyped) atoms); reflexivity.
Qed.

(** Instance of C1: the four calculations of the small topology. *)
Lemma setup_enumeration_fidelity_witness :
  topology (simple_force_field small_topology) = Some small_topology
  /\ count (fst (setup (simple_force_field small_topology))) = 4
  /\ map signature (calculations (fst (setup (simple_force_field small_topology))))
     = [(BondStrech, [0; 1]); (BondStrech, [1; 9]);
        (AngleBend, [0; 1; 9]); (Nonbonded, [0; 2])]%N.
Proof.
  split; [reflexivity |].
  destruct (@setup_enumeration_fidelity simple_imports
              (simple_force_field small_topology) small_topology eq_refl)
    as (Hcount & Hsig & _ & _).
  split; [exact Hcount | exact Hsig].
Defined.

(** C2 as stated fails: on a force field that was set up on the small
    topology and then given the topology of one bond, the set-up of the
    one enumerated calculation succeeds and [setup] returns false, for the
    second bond and the angle it still holds fail again. *)
Lemma setup_false_though_enumerated_succeed :
  topology (used_force_field one_bond_topology) = Some one_bond_topology
  /\ @enumerate simple_imports one_bond_topology
     = [@OplsBondStrechCalculation simple_imports 0%N 1%N]
  /\ snd (@OplsCalculation_setup simple_imports one_bond_topology
            (m_parameters (used_force_field one_bond_topology))
            BondStrech [0%N; 1%N] []) = true
  /\ snd (setup (used_force_field one_bond_topology)) = false.
Proof. repeat split. Qed.

(** Instance of C2 as the code has it: one bond with parameters for both
    atoms, on a force field that holds no calculation. *)
Lemma setup_true_iff_all_succeed_witness :
  topology (simple_force_field one_bond_topology) = Some one_bond_topology
  /\ (snd (setup (simple_force_field one_bond_topology)) = true <->
      forall k atoms,
        In (k, atoms) (@interaction_signatures simple_imports one_bond_topology) ->
        snd (simple_setup one_bond_topology (Some [9%N]) k atoms []) = true).
Proof.
  split; [reflexivity |].
  apply (proj2 (proj2 (@setup_true_iff_all_succeed simple_imports
                         (simple_force_field one_bond_topology) one_bond_topology
                         eq_refl))).
  reflexivity.
Defined.


(** Instance of C4: a force field that was just constructed. *)
Lemma setup_without_topology_witness :
  topology (@OplsForceField_new simple_imports opls_registered) = None
  /\ setup (@OplsForceField_new simple_imports opls_registered)
     = (@OplsForceField_new simple_imports opls_registered, false).
Proof.
  split; [reflexivity |].
  apply (proj1 (@setup_without_topology simple_imports
                  (@OplsForceField_new simple_imports opls_registered))).
  reflexivity.
Defined.

(** C5 as stated fails: after a second [setup] on the same topology and
    table the collection has two calculations where the first call left
    one. *)
Lemma resetup_keeps_previous_calculations :
  count (fst (setup (simple_force_field one_bond_topology))) = 1
  /\ count (fst (setup (fst (setup (simple_force_field one_bond_topology))))) = 2
  /\ count (fst (setup (fst (setup (simple_force_field one_bond_topology)))))
     <> count (fst (setup (simple_force_field one_bond_topology))).
Proof.
  split; [reflexivity |]. split; [reflexivity |].
  vm_compute. discriminate.
Qed.

(** Instance of C5 as the code has it. *)
Lemma resetup_appends_witness :
  topology (simple_force_field small_topology) = Some small_topology
  /\ calculations (fst (setup (fst (setup (simple_force_field small_topology)))))
     = calculations (fst (setup (simple_force_field small_topology)))
       ++ calculations (fst (setup (simple_force_field small_topology)))
  /\ count (fst (setup (fst (setup (simple_force_field small_topology))))) = 8.
Proof.
  split; [reflexivity |].
  destruct (@resetup_appends simple_imports
              (simple_force_field small_topology) small_topology eq_refl)
    as (_ & Hcount & _ & Hsame).
  split; [| exact Hcount].
  apply (proj1 (Hsame eq_refl simple_setup_idempotent)).
Defined.

(** C6 as stated fails: with no plugin registered the parameter file
    cannot be located, and the constructor still yields a force field,
    whose parameter table is missing. *)
Lemma construction_survives_missing_plugin :
  plugin nothing_registered "opls" = None
  /\ @OplsForceField_new simple_imports nothing_registered
     = {| name := "opls"; topology := None; calculations := [];
          flags := 1; m_parameters := None |}
  /\ m_parameters (@OplsForceField_new simple_imports nothing_registered) = None
  /\ snd (setup (@setTopology simple_imports
                   (@OplsForceField_new simple_imports nothing_registered)
                   (Some empty_topology))) = true.
Proof. repeat split. Qed.

(** Instance of C6 as the code has it. *)
Lemma construction_with_or_without_plugin_witness :
  plugin nothing_registered "opls" = None
  /\ @OplsForceField_new simple_imports nothing_registered
     = {| name := "opls"; topology := None; calculations := [];
          flags := 1; m_parameters := None |}.
Proof.
  split; [reflexivity |].
  apply (proj1 (@construction_with_or_without_plugin simple_imports
                  nothing_registered)).
  reflexivity.
Defined.

(** C7 as stated fails: on a force field that was set up on the small
    topology and then given the topology without interactions, [setup]
    returns false and the collection still has its four calculations. *)
Lemma setup_empty_topology_on_used_force_field :
  topology (used_force_field empty_topology) = Some empty_topology
  /\ st_bonded empty_topology = [] /\ st_angle empty_topology = []
  /\ st_torsion empty_topology = [] /\ st_nonbonded empty_topology = []
  /\ snd (setup (used_force_field empty_topology)) = false
  /\ count (fst (setup (used_force_field empty_topology))) = 4.
Proof. repeat split. Qed.

(** Instance of C7 as the code has it: the topology without interactions
    on a force field that holds no calculation. *)
Lemma setup_empty_topology_witness :
  topology (simple_force_field empty_topology) = Some empty_topology
  /\ calculations (simple_force_field empty_topology) = []
  /\ setup (simple_force_field empty_topology)
     = (simple_force_field empty_topology, true)
  /\ count (fst (setup (simple_force_field empty_topology))) = 0.
Proof.
  split; [reflexivity |]. split; [reflexivity |].
  destruct (proj2 (proj2 (proj2
              (@setup_empty_topology simple_imports
                 (simple_force_field empty_topology) empty_topology
                 eq_refl eq_refl eq_refl eq_refl eq_refl))) eq_refl)
    as (Hsetup & _ & Hcount).
  split; [exact Hsetup | exact Hcount].
Defined.

(** * Properties of the graphics transform *)

(** ** Single precision: the default transform *)

Lemma float_mul_zero_finite (a : float) :
  is_finite a = true -> exists s, @mul float _ float_zero a = S754_zero s.
Proof.
  destruct a as [s | s | | s m e]; cbn; intros Hfin; try discriminate;
    eexists; reflexivity.
Qed.

Lemma float_add_zero_zero (s s' : bool) :
  exists s'', @add float _ (S754_zero s) (S754_zero s') = S754_zero s''.
Proof. destruct s, s'; cbn; eexists; reflexivity. Qed.

Lemma float_add_zero_positive_zero (s : bool) :
  @add float _ (S754_zero s) float_zero = float_zero.
Proof. destruct s; reflexivity. Qed.

(** A row of zeros times a vector of numbers whose last coefficient is 0
    or 1 is positive zero. *)
Lemma dot4_zero_row (a b c w : float) :
  is_finite a = true -> is_finite b = true -> is_finite c = true ->
  mul float_zero w = float_zero ->
  dot4 (mkVector4 float_zero float_zero float_zero float_zero)
       (mkVector4 a b c w) = float_zero.
Proof.
  intros Ha Hb Hc Hw. unfold dot4. cbn [c0 c1 c2 c3].
  destruct (float_mul_zero_finite a Ha) as [sa ->].
  destruct (float_mul_zero_finite b Hb) as [sb ->].
  destruct (float_mul_zero_finite c Hc) as [sc ->].
  rewrite Hw.
  destruct (float_add_zero_zero sa sb) as [sab ->].
  destruct (float_add_zero_zero sab sc) as [sabc ->].
  apply float_add_zero_positive_zero.
Qed.

Lemma finite3_coordinates (v : Vector3 float) :
  finite3 v = true ->
  is_finite (x v) = true /\ is_finite (y v) = true /\ is_finite (z v) = true.
Proof.
  unfold finite3. intros Hv.
  apply andb_true_iff in Hv. destruct Hv as [Hv Hz].
  apply andb_true_iff in Hv. destruct Hv as [Hx Hy]. auto.
Qed.

(** The default transform times a vector of numbers whose last
    coefficient is 0 or 1. *)
Lemma mulMatrixVector_default (a b c w : float) :
  is_finite a = true -> is_finite b = true -> is_finite c = true ->
  @mul float _ float_zero w = float_zero ->
  mulMatrixVector GraphicsTransform_new (mkVector4 a b c w)
  = mkVector4 float_zero float_zero float_zero float_zero.
Proof.
  intros Ha Hb Hc Hw. unfold mulMatrixVector.
  change (@GraphicsTransform_new float _)
    with (mkMatrix4 (mkVector4 float_zero float_zero float_zero float_zero)
                    (mkVector4 float_zero float_zero float_zero float_zero)
                    (mkVector4 float_zero float_zero float_zero float_zero)
                    (mkVector4 float_zero float_zero float_zero float_zero)).
  cbn [r0 r1 r2 r3].
  rewrite (dot4_zero_row a b c w Ha Hb Hc Hw). reflexivity.
Qed.

(** C9, as the code has it.  The default-constructed transform is the
    matrix of sixteen zeros, not the identity, and it sends every point
    and every vector whose three coordinates are numbers (finite) to the
    zero point and the zero vector. *)
Theorem default_transform_is_zero :
  @GraphicsTransform_new float _
  = mkMatrix4 (mkVector4 float_zero float_zero float_zero float_zero)
              (mkVector4 float_zero float_zero float_zero float_zero)
              (mkVector4 float_zero float_zero float_zero float_zero)
              (mkVector4 float_zero float_zero float_zero float_zero)
  /\ (forall point : Point3 float,
        finite3 point = true ->
        multiplyPoint GraphicsTransform_new point
        = mkVector3 float_zero float_zero float_zero)
  /\ (forall vector : Vector3 float,
        finite3 vector = true ->
        multiplyVector GraphicsTransform_new vector
        = mkVector3 float_zero float_zero float_zero)
  /\ @GraphicsTransform_new float _ <> @identity float _.
Proof.
  split; [reflexivity |]. split; [| split].
  - intros point Hfin.
    destruct (finite3_coordinates point Hfin) as (Hx & Hy & Hz).
    unfold multiplyPoint.
    rewrite (mulMatrixVector_default _ _ _ (of_Z 1) Hx Hy Hz) by reflexivity.
    reflexivity.
  - intros vector Hfin.
    destruct (finite3_coordinates vector Hfin) as (Hx & Hy & Hz).
    unfold multiplyVector.
    rewrite (mulMatrixVector_default _ _ _ (of_Z 0) Hx Hy Hz) by reflexivity.
    reflexivity.
  - intros Heq. apply (f_equal (fun m => c0 (r0 m))) in Heq.
    vm_compute in Heq. discriminate Heq.
Qed.

(** Instance of C9 as the code has it: the point (1, -2, 0). *)
Lemma default_transform_is_zero_witness :
  finite3 (mkVector3 (of_Z 1) (of_Z (-2)) (of_Z 0)) = true
  /\ multiplyPoint GraphicsTransform_new (mkVector3 (of_Z 1) (of_Z (-2)) (of_Z 0))
     = mkVector3 float_zero float_zero float_zero.
Proof.
  split; [reflexivity |].
  apply (proj1 (proj2 default_transform_is_zero)). reflexivity.
Defined.

(** C9 as stated fails: a point with an infinite coordinate is not sent
    to the zero point, since zero times infinity is not a number. *)
Lemma default_transform_infinite_point :
  multiplyPoint GraphicsTransform_new
    (mkVector3 float_infinity float_zero float_zero)
  = mkVector3 S754_nan S754_nan S754_nan
  /\ multiplyPoint GraphicsTransform_new
       (mkVector3 float_infinity float_zero float_zero)
     <> mkVector3 float_zero float_zero float_zero
  /\ multiplyVector GraphicsTransform_new
       (mkVector3 float_infinity float_zero float_zero)
     <> mkVector3 float_zero float_zero float_zero.
Proof.
  split; [reflexivity |]. split; vm_compute; discriminate.
Qed.

(** ** Exact arithmetic: the unit of the angles *)

Lemma degrees_full_turn (angle : R) :
  ((angle + 360) * (PI / 180) = angle * (PI / 180) + 2 * PI)%R.
Proof. field. Qed.

Lemma cos_full_turn (a : R) : Rtrigo_def.cos (a + 2 * PI) = Rtrigo_def.cos a.
Proof. rewrite cos_plus, cos_2PI, sin_2PI. ring. Qed.

Lemma sin_full_turn (a : R) : Rtrigo_def.sin (a + 2 * PI) = Rtrigo_def.sin a.
Proof. rewrite sin_plus, cos_2PI, sin_2PI. ring. Qed.

Lemma tan_half_turn (a : R) : Rtrigo1.tan (a + PI) = Rtrigo1.tan a.
Proof.
  unfold Rtrigo1.tan. rewrite neg_sin, neg_cos.
  rewrite Rdiv_opp_l, Rdiv_opp_r. ring.
Qed.

Lemma R_normalized_z_axis :
  R_normalized (mkVector3 0 0 1)%R = mkVector3 0%R 0%R 1%R.
Proof.
  unfold R_normalized. cbn [x y z].
  replace (0 * 0 + 0 * 0 + 1 * 1)%R with 1%R by ring.
  rewrite sqrt_1. f_equal; field.
Qed.

Lemma rotation_cos_sin (axis : Vector3 R) (angle angle' : R) :
  cos (mul angle DegreesToRadians) = cos (mul angle' DegreesToRadians) ->
  sin (mul angle DegreesToRadians) = sin (mul angle' DegreesToRadians) ->
  rotation axis angle = rotation axis angle'.
Proof. intros Hc Hs. unfold rotation. rewrite Hc, Hs. reflexivity. Qed.

(** C10. In every arithmetic, the sine and cosine in the coefficients of
    [rotation] are taken of the angle times [DegreesToRadians], and the
    focal coefficient of [perspective] is 1 / tan (angle / 2), the tangent
    of half the angle as it is passed.  Over the reals, where
    [DegreesToRadians] is pi / 180, [rotation] thus reads its angle in
    degrees: a rotation by 90 about the z axis is the quarter turn, 360
    more give the same matrix, and a rotation by pi / 2 is not the quarter
    turn; [perspective] reads its angle in radians: the angle pi / 2
    gives the focal coefficient 1 and 2 pi more give the same matrix. *)
Theorem rotation_in_degrees_perspective_in_radians :
  (forall (F : Type) (SF : Scalar F) (TF : Trigonometry F)
          (axis : Vector3 F) (angle : F),
      let v := normalized axis in
      let c := cos (mul angle DegreesToRadians) in
      let s := sin (mul angle DegreesToRadians) in
      mget (rotation axis angle) 0 0
      = add (mul (x v) (x v)) (mul (sub (of_Z 1) (mul (x v) (x v))) c)
      /\ mget (rotation axis angle) 0 1
         = sub (mul (mul (x v) (y v)) (sub (of_Z 1) c)) (mul (z v) s)
      /\ mget (rotation axis angle) 1 0
         = add (mul (mul (x v) (y v)) (sub (of_Z 1) c)) (mul (z v) s))
  /\ (forall (F : Type) (SF : Scalar F) (TF : Trigonometry F)
             (angle aspectRatio nearDistance farDistance : F),
         let f := div (of_Z 1) (tan (div angle (of_Z 2))) in
         mget (perspective angle aspectRatio nearDistance farDistance) 1 1 = f
         /\ mget (perspective angle aspectRatio nearDistance farDistance) 0 0
            = div f aspectRatio)
  /\ (forall (axis : Vector3 R) (angle : R),
         rotation axis (angle + 360)%R = rotation axis angle)
  /\ rotation (mkVector3 0 0 1)%R 90%R
     = mkMatrix4 (mkVector4 0 (-1) 0 0)%R (mkVector4 1 0 0 0)%R
                 (mkVector4 0 0 1 0)%R (mkVector4 0 0 0 1)%R
  /\ rotation (mkVector3 0 0 1)%R (PI / 2)%R
     <> mkMatrix4 (mkVector4 0 (-1) 0 0)%R (mkVector4 1 0 0 0)%R
                  (mkVector4 0 0 1 0)%R (mkVector4 0 0 0 1)%R
  /\ (forall angle aspectRatio nearDistance farDistance : R,
         perspective (angle + 2 * PI)%R aspectRatio nearDistance farDistance
         = perspective angle aspectRatio nearDistance farDistance)
  /\ (forall aspectRatio nearDistance farDistance : R,
         mget (perspective (PI / 2)%R aspectRatio nearDistance farDistance) 1 1
         = 1%R).
Proof.
  split; [| split; [| split; [| split; [| split; [| split]]]]].
  - intros F SF TF axis angle v c s. repeat split.
  - intros F SF TF angle aspectRatio nearDistance farDistance f. split; reflexivity.
  - intros axis angle. apply rotation_cos_sin;
      cbn [cos sin mul DegreesToRadians R_Trigonometry R_Scalar];
      unfold R_DegreesToRadians; rewrite degrees_full_turn.
    + apply cos_full_turn.
    + apply sin_full_turn.
  - unfold rotation.
    lazy beta iota zeta delta
      [identity setIdentity mset vset r0 r1 r2 r3 c0 c1 c2 c3
       cos sin mul add sub of_Z normalized DegreesToRadians
       R_Trigonometry R_Scalar].
    rewrite R_normalized_z_axis. cbn [x y z].
    unfold R_DegreesToRadians.
    replace (90 * (PI / 180))%R with (PI / 2)%R by field.
    rewrite cos_PI2, sin_PI2.
    apply (f_equal4 mkMatrix4); apply (f_equal4 mkVector4); ring.
  - intros Heq. apply (f_equal (fun m => mget m 1 0)) in Heq.
    unfold rotation in Heq.
    lazy beta iota zeta delta
      [identity setIdentity mget vget mset vset r0 r1 r2 r3 c0 c1 c2 c3
       cos sin mul add sub of_Z normalized DegreesToRadians
       R_Trigonometry R_Scalar] in Heq.
    rewrite R_normalized_z_axis in Heq. cbn [x y z] in Heq.
    unfold R_DegreesToRadians in Heq.
    assert (Hpos : (0 < PI / 2 * (PI / 180))%R).
    { pose proof PI_RGT_0. nra. }
    pose proof (sin_lt_x _ Hpos) as Hlt.
    pose proof PI_4. pose proof PI_RGT_0.
    assert ((PI / 2 * (PI / 180)) < 1)%R by nra.
    lra.
  - intros angle aspectRatio nearDistance farDistance. unfold perspective.
    cbn [tan div R_Trigonometry R_Scalar of_Z].
    replace ((angle + 2 * PI) / 2)%R with (angle / 2 + PI)%R by field.
    rewrite tan_half_turn. reflexivity.
  - intros aspectRatio nearDistance farDistance.
    change (mget (perspective (PI / 2)%R aspectRatio nearDistance farDistance) 1 1)
      with (1 / Rtrigo1.tan (PI / 2 / 2))%R.
    replace (PI / 2 / 2)%R with (PI / 4)%R by field.
    rewrite tan_PI4. field.
Qed.

(** * Further properties of the graphics transform, over the reals *)

(** X1. The identity transform leaves every point and every vector as it
    is. *)
Theorem identity_multiplyPoint_multiplyVector (p : Vector3 R) :
  multiplyPoint identity p = p /\ multiplyVector identity p = p.
Proof.
  destruct p as [px py pz]. split; unfold_transform; vector3_eq ltac:(ring).
Qed.

(** X2. The identity transform is neutral for the product of transforms,
    on both sides. *)
Theorem identity_multiply (t : GraphicsTransform R) :
  multiply identity t = t /\ multiply t identity = t.
Proof.
  destruct t as [[a00 a01 a02 a03] [a10 a11 a12 a13]
                 [a20 a21 a22 a23] [a30 a31 a32 a33]].
  split; unfold_transform; matrix_eq ltac:(ring).
Qed.

(** X3. The product of transforms is the composition: applying the
    product to a vector of four coefficients is applying the right factor
    and then the left one; and the product is associative. *)
Theorem multiply_composes (a b c : GraphicsTransform R) (v : Vector4 R) :
  multiply4 (multiply a b) v = multiply4 a (multiply4 b v)
  /\ multiply (multiply a b) c = multiply a (multiply b c).
Proof.
  destruct a as [[a00 a01 a02 a03] [a10 a11 a12 a13]
                 [a20 a21 a22 a23] [a30 a31 a32 a33]].
  destruct b as [[b00 b01 b02 b03] [b10 b11 b12 b13]
                 [b20 b21 b22 b23] [b30 b31 b32 b33]].
  destruct c as [[d00 d01 d02 d03] [d10 d11 d12 d13]
                 [d20 d21 d22 d23] [d30 d31 d32 d33]].
  destruct v as [v0 v1 v2 v3].
  split; unfold_transform.
  - apply (f_equal4 mkVector4); ring.
  - matrix_eq ltac:(ring).
Qed.

(** X4. A point goes through a transform as the vector with the same
    coordinates does, plus the fourth column of the transform. *)
Theorem multiplyPoint_is_multiplyVector_plus_offset
    (t : GraphicsTransform R) (p : Vector3 R) :
  multiplyPoint t p = R_plus3 (multiplyVector t p) (R_offset t).
Proof.
  destruct t as [[a00 a01 a02 a03] [a10 a11 a12 a13]
                 [a20 a21 a22 a23] [a30 a31 a32 a33]].
  destruct p as [px py pz]. unfold_transform. vector3_eq ltac:(ring).
Qed.

(** X5. For a right factor whose last row is 0 0 0 1, transforming a point
    by the product is transforming it by the right factor and then by the
    left one; the same holds for vectors. *)
Theorem multiplyPoint_multiply_affine
    (a b : GraphicsTransform R) (p : Vector3 R) :
  R_affine b ->
  multiplyPoint (multiply a b) p = multiplyPoint a (multiplyPoint b p)
  /\ multiplyVector (multiply a b) p = multiplyVector a (multiplyVector b p).
Proof.
  destruct a as [[a00 a01 a02 a03] [a10 a11 a12 a13]
                 [a20 a21 a22 a23] [a30 a31 a32 a33]].
  destruct b as [[b00 b01 b02 b03] [b10 b11 b12 b13]
                 [b20 b21 b22 b23] b3].
  destruct p as [px py pz].
  unfold R_affine. cbn [r3]. intros ->.
  split; unfold_transform; vector3_eq ltac:(ring).
Qed.

(** X6. A translation adds its vector to every point and leaves every
    vector as it is. *)
Theorem translation_multiplyPoint_multiplyVector (v p : Vector3 R) :
  multiplyPoint (translation v) p = R_plus3 p v
  /\ multiplyVector (translation v) p = p.
Proof.
  destruct v as [vx vy vz], p as [px py pz].
  split; unfold_transform; vector3_eq ltac:(ring).
Qed.

(** X7. Translations compose by adding their vectors, and the translation
    by the zero vector is the identity. *)
Theorem translation_multiply (u v : Vector3 R) :
  multiply (translation u) (translation v) = translation (R_plus3 u v)
  /\ translation (mkVector3 0 0 0)%R = identity.
Proof.
  destruct u as [ux uy uz], v as [vx vy vz].
  split; unfold_transform; matrix_eq ltac:(ring).
Qed.

Lemma rotation_of_cos_sin (axis : Vector3 R) (angle : R) (c s : R) :
  Rtrigo_def.cos (angle * (PI / 180)) = c ->
  Rtrigo_def.sin (angle * (PI / 180)) = s ->
  rotation axis angle
  = let v := R_normalized axis in
    mkMatrix4
      (mkVector4 (x v * x v + (1 - x v * x v) * c)
                 (x v * y v * (1 - c) - z v * s)
                 (x v * z v * (1 - c) + y v * s) 0)%R
      (mkVector4 (x v * y v * (1 - c) + z v * s)
                 (y v * y v + (1 - y v * y v) * c)
                 (y v * z v * (1 - c) - x v * s) 0)%R
      (mkVector4 (x v * z v * (1 - c) - y v * s)
                 (y v * z v * (1 - c) + x v * s)
                 (z v * z v + (1 - z v * z v) * c) 0)%R
      (mkVector4 0 0 0 1)%R.
Proof.
  intros Hc Hs. unfold rotation.
  lazy beta iota zeta delta
    [identity setIdentity mset vset r0 r1 r2 r3 c0 c1 c2 c3
     cos sin mul add sub of_Z normalized DegreesToRadians
     R_Trigonometry R_Scalar].
  unfold R_DegreesToRadians. rewrite Hc, Hs. reflexivity.
Qed.

Lemma rotation_by_zero (axis : Vector3 R) : rotation axis 0%R = identity.
Proof.
  rewrite (rotation_of_cos_sin axis 0 1 0).
  - cbv zeta. unfold_transform. matrix_eq ltac:(ring).
  - replace (0 * (PI / 180))%R with 0%R by ring. apply cos_0.
  - replace (0 * (PI / 180))%R with 0%R by ring. apply sin_0.
Qed.

(** X8. A rotation by 0 or by 360 about an axis that is not the zero
    vector is the identity. *)
Theorem rotation_zero_and_full_turn (axis : Vector3 R) :
  R_squaredNorm axis <> 0%R ->
  rotation axis 0%R = identity /\ rotation axis 360%R = identity.
Proof.
  intros _. split; [apply rotation_by_zero |].
  rewrite (rotation_of_cos_sin axis 360 1 0).
  - cbv zeta. unfold_transform. matrix_eq ltac:(ring).
  - replace (360 * (PI / 180))%R with (2 * PI)%R by field. apply cos_2PI.
  - replace (360 * (PI / 180))%R with (2 * PI)%R by field. apply sin_2PI.
Qed.

Lemma R_normalized_unit (axis : Vector3 R) :
  R_squaredNorm axis <> 0%R -> R_squaredNorm (R_normalized axis) = 1%R.
Proof.
  destruct axis as [ax ay az]. unfold R_squaredNorm, R_normalized. cbn [x y z].
  intros Hnz.
  assert (Hpos : (0 <= ax * ax + ay * ay + az * az)%R) by nra.
  pose proof (sqrt_sqrt _ Hpos) as Hsq.
  set (n := sqrt (ax * ax + ay * ay + az * az)) in *.
  assert (Hn : n <> 0%R).
  { intros Hn0. rewrite Hn0 in Hsq. apply Hnz. rewrite <- Hsq. ring. }
  replace (ax / n * (ax / n) + ay / n * (ay / n) + az / n * (az / n))%R
    with ((ax * ax + ay * ay + az * az) / (n * n))%R by (field; exact Hn).
  rewrite <- Hsq. field. exact Hn.
Qed.

(** X9. A rotation about an axis that is not the zero vector leaves the
    direction of the axis as it is, and every rotation leaves the origin
    where it is. *)
Theorem rotation_fixes_axis (axis : Vector3 R) (angle : R) :
  R_squaredNorm axis <> 0%R ->
  multiplyVector (rotation axis angle) (R_normalized axis) = R_normalized axis
  /\ multiplyPoint (rotation axis angle) (mkVector3 0 0 0)%R
     = mkVector3 0%R 0%R 0%R.
Proof.
  intros Hnz. pose proof (R_normalized_unit axis Hnz) as Hunit.
  rewrite (rotation_of_cos_sin axis angle _ _ eq_refl eq_refl). cbv zeta.
  destruct (R_normalized axis) as [vx vy vz].
  unfold R_squaredNorm in Hunit. cbn [x y z] in Hunit.
  set (c := Rtrigo_def.cos _). set (s := Rtrigo_def.sin _).
  split; unfold_transform; vector3_eq ltac:(ring_or_nsatz).
Qed.

(** X10. A rotation about an axis that is not the zero vector keeps the
    length of every vector. *)
Theorem rotation_keeps_length (axis w : Vector3 R) (angle : R) :
  R_squaredNorm axis <> 0%R ->
  R_squaredNorm (multiplyVector (rotation axis angle) w) = R_squaredNorm w.
Proof.
  intros Hnz. pose proof (R_normalized_unit axis Hnz) as Hunit.
  rewrite (rotation_of_cos_sin axis angle _ _ eq_refl eq_refl). cbv zeta.
  destruct (R_normalized axis) as [vx vy vz]. destruct w as [wx wy wz].
  unfold R_squaredNorm in Hunit. cbn [x y z] in Hunit.
  pose proof (sin2_cos2 (angle * (PI / 180))) as Hcs. unfold Rsqr in Hcs.
  set (c := Rtrigo_def.cos _) in *. set (s := Rtrigo_def.sin _) in *.
  unfold_transform. nsatz.
Qed.

(** X11. Two rotations about the same axis, not the zero vector, compose
    into the rotation by the sum of the angles; so the rotation by the
    opposite angle undoes a rotation. *)
Theorem rotation_multiply_same_axis (axis : Vector3 R) (a b : R) :
  R_squaredNorm axis <> 0%R ->
  multiply (rotation axis a) (rotation axis b) = rotation axis (a + b)%R
  /\ multiply (rotation axis (- a)%R) (rotation axis a) = identity.
Proof.
  intros Hnz. pose proof (R_normalized_unit axis Hnz) as Hunit.
  assert (Hsum : forall a b,
             multiply (rotation axis a) (rotation axis b)
             = rotation axis (a + b)%R).
  { clear a b. intros a b.
    rewrite (rotation_of_cos_sin axis a _ _ eq_refl eq_refl).
    rewrite (rotation_of_cos_sin axis b _ _ eq_refl eq_refl).
    rewrite (rotation_of_cos_sin axis (a + b)
               (Rtrigo_def.cos (a * (PI / 180)) * Rtrigo_def.cos (b * (PI / 180))
                - Rtrigo_def.sin (a * (PI / 180)) * Rtrigo_def.sin (b * (PI / 180)))
               (Rtrigo_def.sin (a * (PI / 180)) * Rtrigo_def.cos (b * (PI / 180))
                + Rtrigo_def.cos (a * (PI / 180)) * Rtrigo_def.sin (b * (PI / 180)))).
    - cbv zeta. destruct (R_normalized axis) as [vx vy vz].
      unfold R_squaredNorm in Hunit. cbn [x y z] in Hunit.
      pose proof (sin2_cos2 (a * (PI / 180))) as Hca. unfold Rsqr in Hca.
      pose proof (sin2_cos2 (b * (PI / 180))) as Hcb. unfold Rsqr in Hcb.
      set (ca := Rtrigo_def.cos (a * _)) in *.
      set (sa := Rtrigo_def.sin (a * _)) in *.
      set (cb := Rtrigo_def.cos (b * _)) in *.
      set (sb := Rtrigo_def.sin (b * _)) in *.
      unfold_transform. matrix_eq ltac:(ring_or_nsatz).
    - rewrite Rmult_plus_distr_r. apply cos_plus.
    - rewrite Rmult_plus_distr_r. apply sin_plus. }
  split; [apply Hsum |].
  rewrite Hsum. replace (- a + a)%R with 0%R by ring.
  apply rotation_by_zero.
Qed.


(** X13. A perspective transform is the frustum transform of the window
    that is symmetric about the view axis, of half height
    near * tan (angle / 2) and half width that times the aspect ratio. *)
Theorem perspective_is_symmetric_frustum
    (angle aspectRatio nearDistance farDistance : R) :
  nearDistance <> 0%R ->
  Rtrigo1.tan (angle / 2) <> 0%R ->
  aspectRatio <> 0%R ->
  nearDistance <> farDistance ->
  let top := (nearDistance * Rtrigo1.tan (angle / 2))%R in
  let right := (top * aspectRatio)%R in
  perspective angle aspectRatio nearDistance farDistance
  = frustum (- right)%R right top (- top)%R nearDistance farDistance.
Proof.
  intros Hn Htan Ha Hnf top right. subst top right.
  unfold_transform. set (tn := Rtrigo1.tan (angle / 2)) in *.
  assert (Htop : (nearDistance * tn)%R <> 0%R).
  { apply Rmult_integral_contrapositive_currified; assumption. }
  assert (Hright : (nearDistance * tn * aspectRatio)%R <> 0%R).
  { apply Rmult_integral_contrapositive_currified; assumption. }
  assert (Hheight : (nearDistance * tn - - (nearDistance * tn))%R <> 0%R).
  { intros E. apply Htop. lra. }
  assert (Hwidth : (nearDistance * tn * aspectRatio
                    - - (nearDistance * tn * aspectRatio))%R <> 0%R).
  { intros E. apply Hright. lra. }
  matrix_eq ltac:(try reflexivity; field; repeat split; assumption || lra).
Qed.

(** X14. An orthographic transform sends the corner (left, bottom, -near)
    of its box to (-1, -1, -1) and the corner (right, top, -far) to
    (1, 1, 1). *)
Theorem orthographic_maps_box_to_cube
    (left right top bottom nearDistance farDistance : R) :
  left <> right -> top <> bottom -> nearDistance <> farDistance ->
  multiplyPoint (orthographic left right top bottom nearDistance farDistance)
                (mkVector3 left bottom (- nearDistance)%R)
  = mkVector3 (-1)%R (-1)%R (-1)%R
  /\ multiplyPoint (orthographic left right top bottom nearDistance farDistance)
                   (mkVector3 right top (- farDistance)%R)
     = mkVector3 1%R 1%R 1%R.
Proof.
  intros Hlr Htb Hnf.
  split; unfold_transform; vector3_eq ltac:(field; lra).
Qed.

(** X15. On the view axis, a frustum transform and a perspective
    transform send the point at the near distance to depth -near with
    fourth coefficient near, and the point at the far distance to depth
    far with fourth coefficient far. *)
Theorem frustum_perspective_depth_range
    (left right top bottom angle aspectRatio nearDistance farDistance : R) :
  left <> right -> top <> bottom ->
  Rtrigo1.tan (angle / 2) <> 0%R -> aspectRatio <> 0%R ->
  nearDistance <> farDistance ->
  multiply4 (frustum left right top bottom nearDistance farDistance)
            (mkVector4 0 0 (- nearDistance) 1)%R
  = mkVector4 0%R 0%R (- nearDistance)%R nearDistance
  /\ multiply4 (frustum left right top bottom nearDistance farDistance)
               (mkVector4 0 0 (- farDistance) 1)%R
     = mkVector4 0%R 0%R farDistance farDistance
  /\ multiply4 (perspective angle aspectRatio nearDistance farDistance)
               (mkVector4 0 0 (- nearDistance) 1)%R
     = mkVector4 0%R 0%R (- nearDistance)%R nearDistance
  /\ multiply4 (perspective angle aspectRatio nearDistance farDistance)
               (mkVector4 0 0 (- farDistance) 1)%R
     = mkVector4 0%R 0%R farDistance farDistance.
Proof.
  intros Hlr Htb Htan Ha.
  intros Hnf.
  repeat split; unfold_transform;
    apply (f_equal4 mkVector4); try ring;
    rewrite ?Rmult_0_r, ?Rplus_0_l, ?Rplus_0_r; field; lra.
Qed.

(** X21. Reading a coefficient after writing one, with rows and columns
    between 0 and 3: the coefficient written is read back, and every
    other coefficient is as before. *)
Theorem mget_mset (F : Type) (m : Matrix4 F) (row column row' column' : nat) (a : F) :
  row < 4 -> column < 4 -> row' < 4 -> column' < 4 ->
  mget (mset m row column a) row' column'
  = if Nat.eqb row row' && Nat.eqb column column' then a
    else mget m row' column'.
Proof.
  intros Hr Hc Hr' Hc'.
  destruct row as [| [| [| [| row]]]]; try lia;
    destruct column as [| [| [| [| column]]]]; try lia;
    destruct row' as [| [| [| [| row']]]]; try lia;
    destruct column' as [| [| [| [| column']]]]; try lia;
    reflexivity.
Qed.

(** * Further properties of the graphics transform, in single precision *)

Lemma float_mul_nan_r (a : float) : @mul float _ a S754_nan = S754_nan.
Proof. destruct a; reflexivity. Qed.

Lemma float_add_nan_l (a : float) : @add float _ S754_nan a = S754_nan.
Proof. reflexivity. Qed.

Lemma float_add_nan_r (a : float) : @add float _ a S754_nan = S754_nan.
Proof. destruct a; reflexivity. Qed.

Lemma float_mul_zero_infinite (a b : float) :
  is_zero a = true -> is_infinite b = true -> @mul float _ a b = S754_nan.
Proof.
  destruct a; try discriminate; destruct b; try discriminate; reflexivity.
Qed.

(** A sum of four terms one of which is not a number is not a number. *)
Lemma float_sum4_nan (a b c d : float) :
  is_nan a || is_nan b || is_nan c || is_nan d = true ->
  @add float _ (add (add a b) c) d = S754_nan.
Proof.
  intros Hnan.
  destruct (is_nan a) eqn:Ea.
  { destruct a; try discriminate. reflexivity. }
  destruct (is_nan b) eqn:Eb.
  { destruct b; try discriminate. rewrite float_add_nan_r. reflexivity. }
  destruct (is_nan c) eqn:Ec.
  { destruct c; try discriminate. rewrite float_add_nan_r. reflexivity. }
  destruct d; try discriminate. apply float_add_nan_r.
Qed.

(** X22. In single precision, a point or vector with a coordinate that is
    not a number is sent by every transform to the point or vector whose
    three coordinates are not numbers. *)
Theorem nan_coordinate_spreads (t : GraphicsTransform float) (p : Vector3 float) :
  is_nan (x p) || is_nan (y p) || is_nan (z p) = true ->
  multiplyPoint t p = mkVector3 S754_nan S754_nan S754_nan
  /\ multiplyVector t p = mkVector3 S754_nan S754_nan S754_nan.
Proof.
  intros Hnan.
  assert (Hrow : forall (r : Vector4 float) (w : float),
             dot4 r (mkVector4 (x p) (y p) (z p) w) = S754_nan).
  { intros r w. unfold dot4. cbn [c0 c1 c2 c3]. apply float_sum4_nan.
    destruct p as [px py pz]. cbn [x y z] in *.
    destruct px, py, pz; try discriminate Hnan;
      rewrite ?float_mul_nan_r; cbn [is_nan orb];
      rewrite ?orb_true_r; reflexivity. }
  split; [unfold multiplyPoint | unfold multiplyVector];
    unfold mulMatrixVector; cbn [vget c0 c1 c2]; rewrite !Hrow; reflexivity.
Qed.

(** X23. In single precision, where a transform has a zero coefficient at
    row i and column j, for i and j between 0 and 2, and the point or
    vector has an infinite coordinate j, coordinate i of the result is
    not a number. *)
Theorem infinite_coordinate_against_zero
    (t : GraphicsTransform float) (p : Vector3 float) (i j : nat) :
  i < 3 -> j < 3 ->
  is_zero (mget t i j) = true ->
  is_infinite (coordinate p j) = true ->
  coordinate (multiplyPoint t p) i = S754_nan
  /\ coordinate (multiplyVector t p) i = S754_nan.
Proof.
  intros Hi Hj Hzero Hinf.
  assert (Hrow : forall w : float,
             dot4 (match i with 0 => r0 t | 1 => r1 t | _ => r2 t end)
                  (mkVector4 (x p) (y p) (z p) w) = S754_nan).
  { intros w. unfold dot4. cbn [c0 c1 c2 c3]. apply float_sum4_nan.
    destruct i as [| [| [| i]]]; try lia;
      destruct j as [| [| [| j]]]; try lia;
      cbn [mget vget coordinate] in Hzero, Hinf;
      rewrite (float_mul_zero_infinite _ _ Hzero Hinf);
      cbn [is_nan orb]; rewrite ?orb_true_r; reflexivity. }
  split; [unfold multiplyPoint | unfold multiplyVector];
    unfold mulMatrixVector; cbn [vget c0 c1 c2];
    destruct i as [| [| [| i]]]; try lia; cbn [coordinate x y z]; apply Hrow.
Qed.

(** * Further properties of the force field *)

Section ForceFieldFurtherProperties.

Context `{ForceFieldImports}.

Lemma forallb_isSetup_after_setup (t : Topology) (p : option OplsParameters) :
  forall cs,
    forallb calc_isSetup (map (after_setup t p) cs)
    = forallb (setup_succeeds t p) cs.
Proof.
  induction cs as [| c cs IH]; cbn [map forallb].
  - reflexivity.
  - rewrite IH. reflexivity.
Qed.

Lemma nth_error_app_skip (A : Type) (l1 l2 : list A) (i : nat) :
  nth_error (l1 ++ l2) (List.length l1 + i) = nth_error l2 i.
Proof.
  rewrite nth_error_app2 by lia. f_equal. lia.
Qed.

Lemma setup_times_keeps (n : nat) (ff : OplsForceField) :
  topology (setup_times n ff) = topology ff
  /\ flags (setup_times n ff) = flags ff
  /\ m_parameters (setup_times n ff) = m_parameters ff.
Proof.
  induction n as [| n IH].
  - cbn. auto.
  - change (setup_times (S n) ff) with (fst (setup (setup_times n ff))).
    destruct (setup_keeps (setup_times n ff)) as (Ht & Hf & Hp & _).
    destruct IH as (IHt & IHf & IHp).
    rewrite Ht, Hf, Hp. auto.
Qed.

(** X16. [setup] changes the collection of calculations and nothing
    else: the topology, the flags word, the parameter table and the name
    are those before the call; and the kinds and atoms of the
    calculations held before the call are still there, first and in the
    same order. *)
Theorem setup_changes_only_calculations (ff : OplsForceField) :
  topology (fst (setup ff)) = topology ff
  /\ flags (fst (setup ff)) = flags ff
  /\ m_parameters (fst (setup ff)) = m_parameters ff
  /\ name (fst (setup ff)) = name ff
  /\ exists added,
       map signature (calculations (fst (setup ff)))
       = map signature (calculations ff) ++ added.
Proof.
  destruct (setup_keeps ff) as (Ht & Hf & Hp & Hn).
  repeat (split; [assumption |]).
  destruct (topology ff) as [t |] eqn:Etop.
  - exists (interaction_signatures t).
    rewrite (setup_attached ff t Etop). cbn [fst calculations set_calculations].
    rewrite map_signature_after_setup, map_app, signature_enumerate.
    reflexivity.
  - exists []. unfold setup. rewrite Etop. cbn [fst].
    rewrite app_nil_r. reflexivity.
Qed.

(** X17. With a topology attached, the value [setup] returns is what the
    flags it recorded say: true exactly when every calculation of the
    collection is flagged as set up. *)
Theorem setup_result_is_recorded (ff : OplsForceField) (t : Topology) :
  topology ff = Some t ->
  snd (setup ff) = forallb calc_isSetup (calculations (fst (setup ff))).
Proof.
  intros Ht. rewrite (setup_attached ff t Ht).
  cbn [fst snd calculations set_calculations].
  symmetry. apply forallb_isSetup_after_setup.
Qed.

(** X18. Each further call of [setup] on the same topology adds the
    topology's interactions once more: after [n] calls the collection has
    grown by [n] times their number. *)
Theorem repeated_setup_grows (ff : OplsForceField) (t : Topology) (n : nat) :
  topology ff = Some t ->
  count (setup_times n ff) = count ff + n * interaction_count t.
Proof.
  intros Ht. induction n as [| n IH].
  - cbn. lia.
  - change (setup_times (S n) ff) with (fst (setup (setup_times n ff))).
    assert (Htn : topology (setup_times n ff) = Some t).
    { rewrite (proj1 (setup_times_keeps n ff)). exact Ht. }
    rewrite (count_after_setup (setup_times n ff) t Htn), IH. lia.
Qed.

(** X19. The constructor consults the plugin manager for the name opls
    only, and the force field it makes has a parameter table exactly when
    that plugin is registered. *)
Theorem constructor_reads_opls_plugin (pm pm' : PluginManager) :
  (plugin pm "opls" = plugin pm' "opls" ->
   OplsForceField_new pm = OplsForceField_new pm')
  /\ (m_parameters (OplsForceField_new pm) = None <-> plugin pm "opls" = None).
Proof.
  split.
  - intros Heq. unfold OplsForceField_new. rewrite Heq. reflexivity.
  - unfold OplsForceField_new.
    destruct (plugin pm "opls") as [oplsPlugin |]; cbn; split;
      intros E; try reflexivity; discriminate E.
Qed.

(** X20. Where the calculation of an interaction is: with [n]
    calculations held before the call, the [i]-th bonded pair is at index
    [n + i], the [i]-th angle triple follows the B bonded pairs, the
    [i]-th torsion quadruple the B + A before it, and the [i]-th
    nonbonded pair the B + A + T before it, each with its kind and its
    atoms. *)
Theorem calculation_of_interaction (ff : OplsForceField) (t : Topology) :
  topology ff = Some t ->
  let sigs := map signature (calculations (fst (setup ff))) in
  let nB := List.length (bondedInteractions t) in
  let nA := List.length (angleInteractions t) in
  let nT := List.length (torsionInteractions t) in
  (forall i a b,
      nth_error (bondedInteractions t) i = Some (a, b) ->
      nth_error sigs (count ff + i) = Some (BondStrech, [a; b]))
  /\ (forall i a b c,
         nth_error (angleInteractions t) i = Some (a, b, c) ->
         nth_error sigs (count ff + nB + i) = Some (AngleBend, [a; b; c]))
  /\ (forall i a b c d,
         nth_error (torsionInteractions t) i = Some (a, b, c, d) ->
         nth_error sigs (count ff + nB + nA + i) = Some (Torsion, [a; b; c; d]))
  /\ (forall i a b,
         nth_error (nonbondedInteractions t) i = Some (a, b) ->
         nth_error sigs (count ff + nB + nA + nT + i) = Some (Nonbonded, [a; b])).
Proof.
  intros Ht sigs nB nA nT.
  assert (Hsigs : sigs = map signature (calculations ff) ++ interaction_signatures t).
  { unfold sigs. rewrite (setup_attached ff t Ht).
    cbn [fst calculations set_calculations].
    rewrite map_signature_after_setup, map_app, signature_enumerate.
    reflexivity. }
  assert (Hskip : forall i,
             nth_error sigs (count ff + i)
             = nth_error (interaction_signatures t) i).
  { intros i. rewrite Hsigs. unfold count.
    rewrite <- (length_map signature (calculations ff)).
    apply nth_error_app_skip. }
  unfold interaction_signatures in Hskip.
  repeat split.
  - intros i a b Hi. rewrite Hskip.
    rewrite nth_error_app1
      by (rewrite length_map; apply nth_error_Some; congruence).
    rewrite nth_error_map, Hi. reflexivity.
  - intros i a b c Hi. rewrite <- Nat.add_assoc, Hskip.
    unfold nB. rewrite <- (length_map
      (fun i : BondedInteraction => (BondStrech, [fst i; snd i]))
      (bondedInteractions t)).
    rewrite nth_error_app_skip.
    rewrite nth_error_app1
      by (rewrite length_map; apply nth_error_Some; congruence).
    rewrite nth_error_map, Hi. reflexivity.
  - intros i a b c d Hi.
    replace (count ff + nB + nA + i) with (count ff + (nB + (nA + i))) by lia.
    rewrite Hskip.
    unfold nB. rewrite <- (length_map
      (fun i : BondedInteraction => (BondStrech, [fst i; snd i]))
      (bondedInteractions t)).
    rewrite nth_error_app_skip.
    unfold nA. rewrite <- (length_map
      (fun i : AngleInteraction =>
         let '(i0, i1, i2) := i in (AngleBend, [i0; i1; i2]))
      (angleInteractions t)).
    rewrite nth_error_app_skip.
    rewrite nth_error_app1
      by (rewrite length_map; apply nth_error_Some; congruence).
    rewrite nth_error_map, Hi. reflexivity.
  - intros i a b Hi.
    replace (count ff + nB + nA + nT + i)
      with (count ff + (nB + (nA + (nT + i)))) by lia.
    rewrite Hskip.
    unfold nB. rewrite <- (length_map
      (fun i : BondedInteraction => (BondStrech, [fst i; snd i]))
      (bondedInteractions t)).
    rewrite nth_error_app_skip.
    unfold nA. rewrite <- (length_map
      (fun i : AngleInteraction =>
         let '(i0, i1, i2) := i in (AngleBend, [i0; i1; i2]))
      (angleInteractions t)).
    rewrite nth_error_app_skip.
    unfold nT. rewrite <- (length_map
      (fun i : TorsionInteraction =>
         let '(i0, i1, i2, i3) := i in (Torsion, [i0; i1; i2; i3]))
      (torsionInteractions t)).
    rewrite nth_error_app_skip.
    rewrite nth_error_map, Hi. reflexivity.
Qed.

End ForceFieldFurtherProperties.

(** * Instances of the further properties *)

Lemma R_z_axis_nonzero : R_squaredNorm R_z_axis <> 0%R.
Proof. unfold R_squaredNorm, R_z_axis. cbn [x y z]. lra. Qed.

Lemma tan_quarter_nonzero : Rtrigo1.tan (PI / 2 / 2) <> 0%R.
Proof.
  replace (PI / 2 / 2)%R with (PI / 4)%R by field. rewrite tan_PI4. lra.
Qed.

(** Instance of X5: a translation as the right factor. *)
Lemma multiplyPoint_multiply_affine_witness :
  R_affine (translation (mkVector3 1 2 3)%R)
  /\ multiplyPoint (multiply identity (translation (mkVector3 1 2 3)%R))
                   (mkVector3 0 0 0)%R
     = multiplyPoint identity
         (multiplyPoint (translation (mkVector3 1 2 3)%R) (mkVector3 0 0 0)%R).
Proof.
  assert (Haffine : R_affine (translation (mkVector3 1 2 3)%R))
    by reflexivity.
  split; [exact Haffine |].
  exact (proj1 (multiplyPoint_multiply_affine identity
                  (translation (mkVector3 1 2 3)%R) (mkVector3 0 0 0)%R
                  Haffine)).
Defined.

(** Instance of X8: the z axis. *)
Lemma rotation_zero_and_full_turn_witness :
  R_squaredNorm R_z_axis <> 0%R
  /\ rotation R_z_axis 0%R = identity /\ rotation R_z_axis 360%R = identity.
Proof.
  split; [exact R_z_axis_nonzero |].
  apply (rotation_zero_and_full_turn R_z_axis R_z_axis_nonzero).
Defined.

(** Instance of X9: a quarter turn about the z axis. *)
Lemma rotation_fixes_axis_witness :
  R_squaredNorm R_z_axis <> 0%R
  /\ multiplyVector (rotation R_z_axis 90%R) (R_normalized R_z_axis)
     = R_normalized R_z_axis.
Proof.
  split; [exact R_z_axis_nonzero |].
  apply (proj1 (rotation_fixes_axis R_z_axis 90%R R_z_axis_nonzero)).
Defined.

(** Instance of X10: the vector (3, 4, 0) turned by 30 about the z axis. *)
Lemma rotation_keeps_length_witness :
  R_squaredNorm R_z_axis <> 0%R
  /\ R_squaredNorm (multiplyVector (rotation R_z_axis 30%R) (mkVector3 3 4 0)%R)
     = R_squaredNorm (mkVector3 3 4 0)%R.
Proof.
  split; [exact R_z_axis_nonzero |].
  apply (rotation_keeps_length R_z_axis (mkVector3 3 4 0)%R 30%R
           R_z_axis_nonzero).
Defined.

(** Instance of X11: 30 and then 60 about the z axis. *)
Lemma rotation_multiply_same_axis_witness :
  R_squaredNorm R_z_axis <> 0%R
  /\ multiply (rotation R_z_axis 30%R) (rotation R_z_axis 60%R)
     = rotation R_z_axis (30 + 60)%R.
Proof.
  split; [exact R_z_axis_nonzero |].
  apply (proj1 (rotation_multiply_same_axis R_z_axis 30%R 60%R
                  R_z_axis_nonzero)).
Defined.


(** Instance of X13: a right angle of view, square window, depths 1 to 2. *)
Lemma perspective_is_symmetric_frustum_witness :
  (1 <> 0)%R /\ Rtrigo1.tan (PI / 2 / 2) <> 0%R /\ (1 <> 2)%R
  /\ perspective (PI / 2)%R 1%R 1%R 2%R
     = frustum (- (1 * Rtrigo1.tan (PI / 2 / 2) * 1))%R
               (1 * Rtrigo1.tan (PI / 2 / 2) * 1)%R
               (1 * Rtrigo1.tan (PI / 2 / 2))%R
               (- (1 * Rtrigo1.tan (PI / 2 / 2)))%R 1%R 2%R.
Proof.
  split; [lra |]. split; [exact tan_quarter_nonzero |]. split; [lra |].
  apply (perspective_is_symmetric_frustum (PI / 2)%R 1%R 1%R 2%R);
    [lra | exact tan_quarter_nonzero | lra | lra].
Defined.

(** Instance of X14: the box from (0, 0) to (2, 2), depths 1 to 3. *)
Lemma orthographic_maps_box_to_cube_witness :
  (0 <> 2)%R /\ (2 <> 0)%R /\ (1 <> 3)%R
  /\ multiplyPoint (orthographic 0 2 2 0 1 3)%R (mkVector3 0 0 (- 1))%R
     = mkVector3 (-1)%R (-1)%R (-1)%R.
Proof.
  assert (Hlr : (0 <> 2)%R) by lra.
  assert (Htb : (2 <> 0)%R) by lra.
  assert (Hnf : (1 <> 3)%R) by lra.
  split; [exact Hlr |]. split; [exact Htb |]. split; [exact Hnf |].
  exact (proj1 (orthographic_maps_box_to_cube 0 2 2 0 1 3 Hlr Htb Hnf)).
Defined.

(** Instance of X15: the same box and a right angle of view. *)
Lemma frustum_perspective_depth_range_witness :
  (0 <> 2)%R /\ (2 <> 0)%R /\ Rtrigo1.tan (PI / 2 / 2) <> 0%R /\ (1 <> 0)%R
  /\ (1 <> 3)%R
  /\ multiply4 (frustum 0 2 2 0 1 3)%R (mkVector4 0 0 (- 1) 1)%R
     = mkVector4 0%R 0%R (- 1)%R 1%R.
Proof.
  assert (Hlr : (0 <> 2)%R) by lra.
  assert (Htb : (2 <> 0)%R) by lra.
  assert (Ha : (1 <> 0)%R) by lra.
  assert (Hnf : (1 <> 3)%R) by lra.
  split; [exact Hlr |]. split; [exact Htb |].
  split; [exact tan_quarter_nonzero |].
  split; [exact Ha |]. split; [exact Hnf |].
  exact (proj1 (frustum_perspective_depth_range 0 2 2 0 (PI / 2) 1 1 3
                  Hlr Htb tan_quarter_nonzero Ha Hnf)).
Defined.

(** Instance of X17: the small topology, where two calculations fail. *)
Lemma setup_result_is_recorded_witness :
  topology (simple_force_field small_topology) = Some small_topology
  /\ snd (setup (simple_force_field small_topology))
     = forallb calc_isSetup
         (calculations (fst (setup (simple_force_field small_topology)))).
Proof.
  split; [reflexivity |].
  apply (@setup_result_is_recorded simple_imports
           (simple_force_field small_topology) small_topology eq_refl).
Defined.

(** Instance of X18: three calls on the small topology. *)
Lemma repeated_setup_grows_witness :
  topology (simple_force_field small_topology) = Some small_topology
  /\ count (setup_times 3 (simple_force_field small_topology)) = 12.
Proof.
  split; [reflexivity |].
  apply (@repeated_setup_grows simple_imports
           (simple_force_field small_topology) small_topology 3 eq_refl).
Defined.

(** Instance of X19: no plugin at all and another plugin only. *)
Lemma constructor_reads_opls_plugin_witness :
  plugin nothing_registered "opls" = plugin mmff_registered "opls"
  /\ @OplsForceField_new simple_imports nothing_registered
     = @OplsForceField_new simple_imports mmff_registered.
Proof.
  split; [reflexivity |].
  apply (proj1 (@constructor_reads_opls_plugin simple_imports
                  nothing_registered mmff_registered)).
  reflexivity.
Defined.

(** Instance of X20: the angle of the small topology is the third
    calculation. *)
Lemma calculation_of_interaction_witness :
  topology (simple_force_field small_topology) = Some small_topology
  /\ nth_error (st_angle small_topology) 0 = Some (0, 1, 9)%N
  /\ nth_error
       (map signature
            (calculations (fst (setup (simple_force_field small_topology)))))
       2
     = Some (AngleBend, [0; 1; 9]%N).
Proof.
  split; [reflexivity |]. split; [reflexivity |].
  apply (proj1 (proj2 (@calculation_of_interaction simple_imports
                         (simple_force_field small_topology) small_topology
                         eq_refl))
           0 0%N 1%N 9%N eq_refl).
Defined.

(** Instance of X21: writing 5 at row 2, column 3. *)
Lemma mget_mset_witness :
  2 < 4 /\ 3 < 4
  /\ mget (mset (mkMatrix4 (mkVector4 0 0 0 0) (mkVector4 0 0 0 0)
                          (mkVector4 0 0 0 0) (mkVector4 0 0 0 0)) 2 3 5) 2 3
     = 5.
Proof.
  assert (H2 : 2 < 4) by lia. assert (H3 : 3 < 4) by lia.
  split; [exact H2 |]. split; [exact H3 |].
  exact (mget_mset nat (mkMatrix4 (mkVector4 0 0 0 0) (mkVector4 0 0 0 0)
                                  (mkVector4 0 0 0 0) (mkVector4 0 0 0 0))
           2 3 2 3 5 H2 H3 H2 H3).
Defined.

(** Instance of X22: the identity and a point whose y is not a number. *)
Lemma nan_coordinate_spreads_witness :
  is_nan (x (mkVector3 float_zero S754_nan float_zero))
  || is_nan (y (mkVector3 float_zero S754_nan float_zero))
  || is_nan (z (mkVector3 float_zero S754_nan float_zero)) = true
  /\ multiplyPoint identity (mkVector3 float_zero S754_nan float_zero)
     = mkVector3 S754_nan S754_nan S754_nan.
Proof.
  split; [reflexivity |].
  exact (proj1 (nan_coordinate_spreads identity
                  (mkVector3 float_zero S754_nan float_zero) eq_refl)).
Defined.

(** Instance of X23: the identity and a point whose x is infinite; y of
    the result is not a number. *)
Lemma infinite_coordinate_against_zero_witness :
  1 < 3 /\ 0 < 3
  /\ is_zero (mget (@identity float _) 1 0) = true
  /\ is_infinite (coordinate (mkVector3 float_infinity float_zero float_zero) 0)
     = true
  /\ coordinate (multiplyPoint identity
                   (mkVector3 float_infinity float_zero float_zero)) 1
     = S754_nan.
Proof.
  assert (H1 : 1 < 3) by lia. assert (H0 : 0 < 3) by lia.
  split; [exact H1 |]. split; [exact H0 |].
  split; [reflexivity |]. split; [reflexivity |].
  exact (proj1 (infinite_coordinate_against_zero identity
                  (mkVector3 float_infinity float_zero float_zero) 1 0
                  H1 H0 eq_refl eq_refl)).
Defined.
